(** * Chick-fil-A menu pipeline: dashboard, structurer and loader

    A shallow embedding of the decision logic of [streamlit_app.py],
    [structurer.py] and [loader.py], and the properties the specification
    states about it.

    Conventions of the embedding.
    - A Python [str] is a [string] whose characters are the code points
      below 256; on that range the regular-expression class [\d] is exactly
      ['0'..'9'] and [str.isspace] is [Str.is_space].
    - Integers are unbounded, and the limits of the interpreter (memory,
      the cap on the number of digits of an integer conversion) are not
      modelled.
    - Python exceptions are explicit: a computation that can raise has type
      [res A], and [try ... except Exception] is a match on it.
    - What the libraries and the remote services decide is an input of the
      functions that call them: [PyEnv] for the interpreter, NumPy and
      [json], [Supabase] and [Loader.main]'s [upsert] for the table,
      [Structurer.llm] for the language model, [clock] for the time. *)

From stdpp Require Import base option list strings gmap sorting.
From Stdlib Require Import ZArith Ascii DecimalString DecimalZ.

Set Warnings "-register-all".

Local Open Scope Z_scope.

(** ** Exceptions *)

Inductive exn : Type :=
  | ValueError
  | TypeError
  | KeyError
  | AttributeError
  | IndexError
  | JSONDecodeError
  | RemoteError (msg : string).

Inductive res (A : Type) : Type :=
  | Ret (a : A)
  | Raise (e : exn).
Arguments Ret {A} a.
Arguments Raise {A} e.

#[global] Instance res_ret : MRet res := fun A a => Ret a.
#[global] Instance res_bind : MBind res := fun A B f m =>
  match m with
  | Ret a => f a
  | Raise e => Raise e
  end.

(** [try: body except Exception as e: handler e] *)
Definition try_except {A} (body : res A) (handler : exn → res A) : res A :=
  match body with
  | Ret a => Ret a
  | Raise e => handler e
  end.

(** ** Python values

    The objects a JSON document decodes to, plus [nan] (what pandas puts in
    a cell with no value) and datetime-like objects.  Finite floats are
    left out of the model. *)

Inductive value : Type :=
  | VNone
  | VNaN
  | VBool (b : bool)
  | VInt (z : Z)
  | VStr (s : string)
  | VDatetime (text iso : string)
      (* an object with an [isoformat] method: its [str] and its
         [isoformat()] *)
  | VList (l : list value)
  | VDict (d : gmap string value).

(** What the interpreter and its libraries decide and the repository does
    not. *)
Record PyEnv : Type := {
  (* NumPy from 2.2 on: the truth value of an empty array is an error;
     before, it is [False] *)
  np_empty_truth_raises : bool;
  (* NumPy's bound on the number of array dimensions *)
  np_maxdims : nat;
  (* [str] of a list or of a dict *)
  repr_container : value → string;
  (* [json.loads] *)
  json_loads : string → res value
}.

(** ** Strings

    The [str] methods the code calls, on the list of characters of the
    string. *)

Module Str.

Definition to_list (s : string) : list ascii := String.list_ascii_of_string s.
Definition of_list (l : list ascii) : string := String.string_of_list_ascii l.

Definition is_digit (c : ascii) : bool :=
  (48 <=? nat_of_ascii c)%nat && (nat_of_ascii c <=? 57)%nat.

Definition digit_value (c : ascii) : Z := Z.of_nat (nat_of_ascii c) - 48.

(** The code points below 256 for which [str.isspace] holds: what
    [str.strip()] removes. *)
Definition is_space (c : ascii) : bool :=
  let n := nat_of_ascii c in
  ((9 <=? n)%nat && (n <=? 13)%nat) || ((28 <=? n)%nat && (n <=? 32)%nat)
  || (n =? 133)%nat || (n =? 160)%nat.

Fixpoint lstrip_l (l : list ascii) : list ascii :=
  match l with
  | c :: l' => if is_space c then lstrip_l l' else l
  | [] => []
  end.

Definition strip_l (l : list ascii) : list ascii :=
  reverse (lstrip_l (reverse (lstrip_l l))).

Definition strip (s : string) : string := of_list (strip_l (to_list s)).

Definition startswith (s p : string) : bool :=
  bool_decide (to_list p `prefix_of` to_list s).

Definition endswith (s p : string) : bool :=
  bool_decide (to_list p `suffix_of` to_list s).

(** [s[n:]] *)
Definition drop (n : nat) (s : string) : string :=
  of_list (list.drop n (to_list s)).

(** [s[:n]] *)
Definition take (n : nat) (s : string) : string :=
  of_list (list.take n (to_list s)).

(** [s[:-n]] for [0 < n] *)
Definition drop_end (n : nat) (s : string) : string :=
  of_list (list.take (length (to_list s) - n) (to_list s)).

Definition nonempty (s : string) : bool :=
  match s with EmptyString => false | _ => true end.

(** [s.split(sep)] for a one-character separator; [cur] is the piece
    being read, most recent character first. *)
Fixpoint split_go (sep : ascii) (cur : list ascii) (l : list ascii)
    : list (list ascii) :=
  match l with
  | [] => [reverse cur]
  | c :: l' =>
      if Ascii.eqb c sep then reverse cur :: split_go sep [] l'
      else split_go sep (c :: cur) l'
  end.
Definition split (sep : ascii) (s : string) : list string :=
  of_list <$> split_go sep [] (to_list s).

(** [re.findall(r"\d+", s)]: the maximal digit runs, left to right;
    [cur] is the run being read, most recent digit first. *)
Fixpoint findall_go (cur : list ascii) (l : list ascii) : list (list ascii) :=
  match l with
  | [] => match cur with [] => [] | _ => [reverse cur] end
  | c :: l' =>
      if is_digit c then findall_go (c :: cur) l'
      else match cur with
           | [] => findall_go [] l'
           | _ => reverse cur :: findall_go [] l'
           end
  end.
Definition findall_digits (s : string) : list string :=
  of_list <$> findall_go [] (to_list s).

(** The value of a run of decimal digits. *)
Definition digits_value (l : list ascii) : Z :=
  foldl (λ acc c, 10 * acc + digit_value c) 0 l.

(** [int(run)] for a match of [\d+]. *)
Definition int_of_digits (s : string) : Z := digits_value (to_list s).

End Str.

(** [str(z)] for an integer. *)
Definition str_of_Z (z : Z) : string :=
  NilEmpty.string_of_int (Z.to_int z).

Definition py_str (env : PyEnv) (v : value) : string :=
  match v with
  | VNone => "None"
  | VNaN => "nan"
  | VBool true => "True"
  | VBool false => "False"
  | VInt z => str_of_Z z
  | VStr s => s
  | VDatetime text _ => text
  | VList _ | VDict _ => repr_container env v
  end.

(** [x == y] for a cell [x] and a string [y]. *)
Definition eq_str (x : value) (y : string) : bool :=
  match x with
  | VStr s => String.eqb s y
  | _ => false
  end.

(** [x == True]: Python's [True] equals the integer 1. *)
Definition eq_True (x : value) : bool :=
  match x with
  | VBool b => b
  | VInt z => Z.eqb z 1
  | _ => false
  end.

(** ** pandas and NumPy: missing values *)

(** [libmissing.checknull] *)
Definition checknull (x : value) : bool :=
  match x with
  | VNone | VNaN => true
  | _ => false
  end.

Definition as_list (x : value) : option (list value) :=
  match x with
  | VList l => Some l
  | _ => None
  end.

(** The sublists of [l] when [l] is non-empty and holds only lists, all of
    one length: the case in which [np.asarray(_, dtype=object)] adds a
    dimension. *)
Definition same_length_lists (l : list value) : option (list (list value)) :=
  match mapM as_list l with
  | Some ((sub0 :: _) as subs) =>
      if forallb (λ sub, Nat.eqb (length sub) (length sub0)) subs
      then Some subs else None
  | _ => None
  end.

(** The elements of [np.asarray(l, dtype=object)], in order; [fuel] is the
    number of dimensions that may still be added. *)
Fixpoint np_ravel (fuel : nat) (l : list value) : list value :=
  match fuel with
  | O => l
  | S fuel' =>
      match same_length_lists l with
      | Some subs => np_ravel fuel' (concat subs)
      | None => l
      end
  end.

(** [pd.isna] answers a scalar with a bool and a list with an array of
    bools, one per array element. *)
Inductive isna_result : Type :=
  | IsnaBool (b : bool)
  | IsnaArray (bs : list bool).

Definition pd_isna (env : PyEnv) (v : value) : isna_result :=
  match v with
  | VList l => IsnaArray (checknull <$> np_ravel (np_maxdims env - 1) l)
  | _ => IsnaBool (checknull v)
  end.

(** The truth value taken by [if pd.isna(...):]. *)
Definition truth (env : PyEnv) (r : isna_result) : res bool :=
  match r with
  | IsnaBool b => Ret b
  | IsnaArray [] =>
      if np_empty_truth_raises env then Raise ValueError else Ret false
  | IsnaArray [b] => Ret b
  | IsnaArray _ => Raise ValueError
  end.

(** ** Dashboard: [clean_calories] *)

Definition clean_calories (env : PyEnv) (calories_str : value) : res (option Z) :=
  na ← truth env (pd_isna env calories_str);
  if (na : bool) then Ret None
  else
    try_except
      (let nums := Str.findall_digits (py_str env calories_str) in
       match nums with
       | n :: _ => Ret (Some (Str.int_of_digits n))
       | [] => Ret None
       end)
      (λ _, Ret None).

(** ** Dashboard: allergen tags (the loop body of the allergen chart) *)

(** What [for x in v] ranges over; the keys of a dict come in the order of
    the map, on which nothing here depends. *)
Definition py_iter (v : value) : res (list value) :=
  match v with
  | VList l => Ret l
  | VStr s => Ret ((λ c, VStr (String c EmptyString)) <$> Str.to_list s)
  | VDict d => Ret ((λ kv, VStr kv.1) <$> map_to_list d)
  | _ => Raise TypeError
  end.

(** [[t.strip() for t in s.split(",") if t.strip()]] *)
Definition split_tags (s : string) : list value :=
  VStr <$> List.filter Str.nonempty (Str.strip <$> Str.split "," s).

(** The tags that one cell [a] of the [allergens] column adds to
    [all_allergens]. *)
Definition row_allergens (env : PyEnv) (a : value) : list value :=
  match a with
  | VList l => l
  | _ =>
      let s := Str.strip (py_str env a) in
      if Str.startswith s "[" && Str.endswith s "]" then
        match v ← json_loads env s; py_iter v with
        | Ret tags => tags
        | Raise _ => []          (* except Exception: pass *)
        end
      else if Str.nonempty s then split_tags s
      else []
  end.

(** ** Dashboard: the table *)

Abbreviation row := (gmap string value).

Record DataFrame : Type := {
  df_columns : gset string;
  df_rows : list row
}.

(** [pd.DataFrame()] *)
Definition empty_frame : DataFrame := {| df_columns := ∅; df_rows := [] |}.

(** [pd.DataFrame(rows)] for a list of dicts: one column per key met. *)
Definition pd_DataFrame (rows : list row) : DataFrame :=
  {| df_columns := ⋃ (dom <$> rows); df_rows := rows |}.

(** A row has [nan] where it has no value. *)
Definition cell (r : row) (c : string) : value := default VNaN (r !! c).

Definition has_column (df : DataFrame) (c : string) : bool :=
  bool_decide (c ∈ df_columns df).

(** [df[c]] *)
Definition column (df : DataFrame) (c : string) : list value :=
  (λ r, cell r c) <$> df_rows df.

(** [series.dropna()] *)
Definition dropna (cells : list value) : list value :=
  List.filter (λ x, negb (checknull x)) cells.

(** [df[mask]] for a mask computed row by row. *)
Definition select_rows (keep : row → bool) (df : DataFrame) : DataFrame :=
  {| df_columns := df_columns df; df_rows := List.filter keep (df_rows df) |}.

(** [len(df)] *)
Definition df_len (df : DataFrame) : nat := length (df_rows df).

(** The tags of the allergen chart: those of every cell of the column that
    is not missing. *)
Definition all_allergens (env : PyEnv) (filtered_df : DataFrame) : list value :=
  if has_column filtered_df "allergens"
  then mjoin (row_allergens env <$> dropna (column filtered_df "allergens"))
  else [].

(** ** Dashboard: filters *)

Definition apply_filters (df : DataFrame) (selected_category : string)
    (show_vegetarian show_gluten_free : bool) : DataFrame :=
  let filtered_df := df in
  let filtered_df :=
    if negb (String.eqb selected_category "All")
       && has_column filtered_df "category"
    then select_rows (λ r, eq_str (cell r "category") selected_category) filtered_df
    else filtered_df in
  let filtered_df :=
    if show_vegetarian && has_column filtered_df "is_vegetarian"
    then select_rows (λ r, eq_True (cell r "is_vegetarian")) filtered_df
    else filtered_df in
  let filtered_df :=
    if show_gluten_free && has_column filtered_df "is_gluten_free"
    then select_rows (λ r, eq_True (cell r "is_gluten_free")) filtered_df
    else filtered_df in
  filtered_df.

(** ** Dashboard: summary counters *)

Definition hashable (x : value) : bool :=
  match x with
  | VList _ | VDict _ => false
  | _ => true
  end.

Definition as_num (x : value) : option Z :=
  match x with
  | VBool b => Some (if b then 1 else 0)
  | VInt z => Some z
  | _ => None
  end.

(** [x == y] on hashable values: the equality by which pandas tells the
    values of a column apart. *)
Definition key_eq (x y : value) : bool :=
  match as_num x, as_num y with
  | Some a, Some b => a =? b
  | None, None =>
      match x, y with
      | VStr s, VStr t => String.eqb s t
      | VDatetime s i, VDatetime t j => String.eqb s t && String.eqb i j
      | VNone, VNone => true
      | _, _ => false
      end
  | _, _ => false
  end.

Fixpoint distinct (seen : list value) (cells : list value) : nat :=
  match cells with
  | [] => 0
  | x :: rest =>
      if existsb (key_eq x) seen then distinct seen rest
      else S (distinct (x :: seen) rest)
  end.

(** [series.nunique()] *)
Definition nunique (cells : list value) : res nat :=
  let present := dropna cells in
  if forallb hashable present then Ret (distinct [] present)
  else Raise TypeError.

(** [x + y] *)
Definition py_add (x y : value) : res value :=
  match as_num x, as_num y with
  | Some a, Some b => Ret (VInt (a + b))
  | _, _ =>
      match x, y with
      | VStr s, VStr t => Ret (VStr (s +:+ t))
      | VList l, VList k => Ret (VList (l ++ k))
      | _, _ => Raise TypeError
      end
  end.

Fixpoint add_all (acc : value) (cells : list value) : res value :=
  match cells with
  | [] => Ret acc
  | x :: rest => acc' ← py_add acc x; add_all acc' rest
  end.

(** [series.sum()]: missing cells count as 0, the others are added from
    left to right. *)
Definition series_sum (cells : list value) : res value :=
  match (λ x, if checknull x then VInt 0 else x) <$> cells with
  | [] => Ret (VInt 0)
  | x :: rest => add_all x rest
  end.

(** The digits of an integer literal, which may hold single underscores
    between digits. [prev] tells whether the previous character was a digit. *)
Fixpoint literal_digits (prev : bool) (acc : Z) (l : list ascii) : option Z :=
  match l with
  | [] => if prev then Some acc else None
  | c :: l' =>
      if Str.is_digit c then literal_digits true (10 * acc + Str.digit_value c) l'
      else if Ascii.eqb c "_" && prev then literal_digits false acc l'
      else None
  end.

(** [int(x)] *)
Definition py_int (x : value) : res Z :=
  match x with
  | VBool b => Ret (if b then 1 else 0)
  | VInt z => Ret z
  | VStr s =>
      let parsed :=
        match Str.strip_l (Str.to_list s) with
        | "+"%char :: l => literal_digits false 0 l
        | "-"%char :: l => Z.opp <$> literal_digits false 0 l
        | l => literal_digits false 0 l
        end in
      match parsed with
      | Some z => Ret z
      | None => Raise ValueError
      end
  | VNaN => Raise ValueError
  | _ => Raise TypeError
  end.

Record Kpis : Type := {
  total_menu_items : nat;
  categories : nat;
  vegetarian_options : Z;
  gluten_free_options : Z
}.

(** The four [st.metric] values, in the order the code computes them. *)
Definition kpi_row (df : DataFrame) : res Kpis :=
  let total := df_len df in
  ncat ← (if has_column df "category" then nunique (column df "category")
          else Ret 0%nat);
  veg_count ← (if has_column df "is_vegetarian"
               then series_sum (column df "is_vegetarian") ≫= py_int
               else Ret 0);
  gf_count ← (if has_column df "is_gluten_free"
              then series_sum (column df "is_gluten_free") ≫= py_int
              else Ret 0);
  Ret {| total_menu_items := total; categories := ncat;
         vegetarian_options := veg_count; gluten_free_options := gf_count |}.

(** Lines 72 to 92 of [main]: the filters are applied, then the counters
    are computed. *)
Definition filters_then_kpis (df : DataFrame) (selected_category : string)
    (show_vegetarian show_gluten_free : bool) : res (DataFrame * Kpis) :=
  let filtered_df :=
    apply_filters df selected_category show_vegetarian show_gluten_free in
  k ← kpi_row df;
  Ret (filtered_df, k).

(** ** Dashboard: [get_menu_data] *)

(** What the user interface is asked to show. *)
Inductive ui : Type :=
  | StError (msg : string)
  | StErrorExn (msg : string) (e : exn).

(** The remote table: creating the client, then running the select, whose
    answer carries [data], a list of rows or [None]. *)
Record Supabase : Type := {
  create_client : string → string → res unit;
  execute_select : unit → res (option (list row))
}.

(** [not x] for the value of [os.environ.get]. *)
Definition env_missing (x : option string) : bool :=
  match x with
  | Some s => negb (Str.nonempty s)
  | None => true
  end.

Definition get_menu_data (SUPABASE_URL SUPABASE_KEY : option string)
    (remote : Supabase) : res DataFrame * list ui :=
  if env_missing SUPABASE_URL || env_missing SUPABASE_KEY then
    (Ret empty_frame,
     [StError "Missing SUPABASE_URL or SUPABASE_KEY in environment."])
  else
    let body :=
      sb ← create_client remote (default "" SUPABASE_URL) (default "" SUPABASE_KEY);
      res ← execute_select remote sb;
      let rows := default [] res in
      Ret (pd_DataFrame rows) in
    match body with
    | Ret df => (Ret df, [])
    | Raise e =>
        (Ret empty_frame, [StErrorExn "Error fetching data from Supabase: " e])
    end.

(** ** Records as dicts *)

(** [item[k] = v] *)
Definition setitem (item : value) (k : string) (v : value) : res value :=
  match item with
  | VDict d => Ret (VDict (<[k := v]> d))
  | _ => Raise TypeError
  end.

(** [item[k]] for a string [k] *)
Definition getitem (item : value) (k : string) : res value :=
  match item with
  | VDict d => match d !! k with Some v => Ret v | None => Raise KeyError end
  | _ => Raise TypeError
  end.

(** [item.get(k, dflt)] *)
Definition dict_get (item : value) (k : string) (dflt : value) : res value :=
  match item with
  | VDict d => Ret (default dflt (d !! k))
  | _ => Raise AttributeError
  end.

(** [bool(x)] *)
Definition truthy (x : value) : bool :=
  match x with
  | VNone => false
  | VNaN => true
  | VBool b => b
  | VInt z => negb (z =? 0)
  | VStr s => Str.nonempty s
  | VDatetime _ _ => true
  | VList l => match l with [] => false | _ => true end
  | VDict d => match map_to_list d with [] => false | _ => true end
  end.

(** What a script writes to its standard output. *)
Inductive stdout : Type :=
  | PrintError (e : exn)                     (* "Error: {e}" *)
  | PrintLoading                             (* "Loading data to Supabase..." *)
  | PrintOk (name : value)                   (* "✓ {name}" *)
  | PrintRejected (name error : value)       (* "✗ {name}: {error}" *)
  | PrintItemError (name : value) (e : exn)  (* "Error with {name}: {e}" *)
  | PrintSummary (successful total : nat).   (* "Successfully loaded s/t items!" *)

(** ** Structurer *)

Module Structurer.

Definition nl : string := String "010"%char EmptyString.
Definition dq : string := String "034"%char EmptyString.
Definition quoted (s : string) : string := dq +:+ s +:+ dq.
Definition field (indent k v : string) : string :=
  indent +:+ quoted k +:+ ": " +:+ v.

(** The f-string of [structure_menu_simple], around the text it embeds. *)
Definition prompt (text : string) : string :=
  String.concat nl [
    "";
    "    Extract Chick-fil-A menu items from this text and return as JSON array.";
    "    ";
    "    Text: " +:+ text;
    "    ";
    "    Return JSON format like this:";
    "    [";
    "        {";
    field "            " "id" (quoted "waffle-fries" +:+ ",");
    field "            " "name" (quoted "Waffle Potato Fries" +:+ ",");
    field "            " "category" (quoted "sides" +:+ ",");
    field "            " "description"
      (quoted "Freshly cooked waffle-cut fries" +:+ ",");
    field "            " "price" (quoted "$2.50" +:+ ",");
    field "            " "calories" (quoted "360" +:+ ",");
    field "            " "allergens"
      ("[" +:+ quoted "wheat" +:+ ", " +:+ quoted "dairy" +:+ "],");
    field "            " "is_vegetarian" "false,";
    field "            " "is_gluten_free" "false";
    "        }";
    "    ]";
    "    ";
    "    Extract all menu items you find. If information is missing, make reasonable estimates.";
    "    Return ONLY valid JSON, no other text.";
    "    "
  ].

(** The completion service: the [message.content] of each choice of the
    response, [None] where the message has no content. *)
Definition llm : Type := string → res (list (option string)).

(** [response.choices[0].message.content.strip()] *)
Definition first_content (choices : list (option string)) : res string :=
  match choices with
  | [] => Raise IndexError
  | None :: _ => Raise AttributeError
  | Some content :: _ => Ret (Str.strip content)
  end.

(** "Clean JSON response": the two [if]s after [strip]. *)
Definition clean_fences (result : string) : string :=
  let result :=
    if Str.startswith result "```json" then Str.drop 7 result else result in
  let result :=
    if Str.endswith result "```" then Str.drop_end 3 result else result in
  result.

Definition source_url : string := "https://www.chick-fil-a.com/menu/sides".

(** "Add metadata": the [t]-th reading of the clock is [clock t]. *)
Fixpoint add_metadata (clock : nat → string) (t : nat) (items : list value)
    : res (list value) :=
  match items with
  | [] => Ret []
  | item :: rest =>
      item ← setitem item "source_url" (VStr source_url);
      item ← setitem item "extracted_at" (VStr (clock t));
      rest ← add_metadata clock (S t) rest;
      Ret (item :: rest)
  end.

(** The [try] block. *)
Definition structure_body (env : PyEnv) (model : llm) (clock : nat → string)
    (text_blob : string) : res value :=
  choices ← model (prompt (Str.take 4000 text_blob));
  result ← first_content choices;
  let result := clean_fences result in
  menu_data ← json_loads env result;
  items ← py_iter menu_data;
  items ← add_metadata clock 0 items;
  Ret (match menu_data with VList _ => VList items | _ => menu_data end).

Definition structure_menu_simple (env : PyEnv) (model : llm)
    (clock : nat → string) (text_blob : string) : value * list stdout :=
  match structure_body env model clock text_blob with
  | Ret menu_data => (menu_data, [])
  | Raise e => (VList [], [PrintError e])
  end.

End Structurer.

(** ** Loader *)

Module Loader.

(** The answer of an upsert: the value of its [error] attribute, [None]
    when it has no such attribute. *)
Record response : Type := { error_attr : option value }.

(** [not hasattr(response, 'error') or not response.error] *)
Definition accepted (r : response) : bool :=
  match error_attr r with
  | None => true
  | Some err => negb (truthy err)
  end.

(** The statements before the upsert: stamp [updated_at], then turn a
    datetime-like [extracted_at] into its ISO string. *)
Definition prepare (now : string) (item : value) : res value :=
  item ← setitem item "updated_at" (VStr now);
  match item with
  | VDict d =>
      match d !! "extracted_at" with
      | Some (VDatetime _ iso) => setitem item "extracted_at" (VStr iso)
      | _ => Ret item
      end
  | _ => Ret item
  end.

Section Run.

(** The remote table: an upsert answers or raises, and leaves the table
    in a new state either way. *)
Context {Store : Type}.
Variable upsert : Store → value → res response * Store.
(** The [t]-th reading of the clock, as [isoformat()] gives it. *)
Variable clock : nat → string.

Record state : Type := {
  store : Store;
  successful : nat;
  ticks : nat;
  sent : list value;      (* the arguments of the upserts made so far *)
  out : list stdout
}.

Definition tick (st : state) : state :=
  {| store := store st; successful := successful st; ticks := S (ticks st);
     sent := sent st; out := out st |}.
Definition upserted (item : value) (s : Store) (st : state) : state :=
  {| store := s; successful := successful st; ticks := ticks st;
     sent := sent st ++ [item]; out := out st |}.
Definition count (st : state) : state :=
  {| store := store st; successful := S (successful st); ticks := ticks st;
     sent := sent st; out := out st |}.
Definition print (line : stdout) (st : state) : state :=
  {| store := store st; successful := successful st; ticks := ticks st;
     sent := sent st; out := out st ++ [line] |}.

(** The inner [try] block for one item: the state it leaves, and the
    exception it raised, if any. *)
Definition try_item (st : state) (item : value) : state * option exn :=
  let now := clock (ticks st) in
  let st := tick st in
  match prepare now item with
  | Raise e => (st, Some e)
  | Ret item =>
      let '(answer, s) := upsert (store st) item in
      let st := upserted item s st in
      match answer with
      | Raise e => (st, Some e)
      | Ret r =>
          if accepted r then
            let st := count st in
            match getitem item "name" with
            | Ret name => (print (PrintOk name) st, None)
            | Raise e => (st, Some e)
            end
          else
            match getitem item "name" with
            | Ret name =>
                (print (PrintRejected name (default VNone (error_attr r))) st,
                 None)
            | Raise e => (st, Some e)
            end
      end
  end.

(** One turn of the loop: the [try] block and its handler, which itself
    raises when the item has no [get] method. *)
Definition load_item (st : state) (item : value) : state * option exn :=
  match try_item st item with
  | (st, None) => (st, None)
  | (st, Some e) =>
      match dict_get item "name" (VStr "unknown") with
      | Ret name => (print (PrintItemError name e) st, None)
      | Raise e' => (st, Some e')
      end
  end.

Fixpoint load_items (st : state) (menu_items : list value)
    : state * option exn :=
  match menu_items with
  | [] => (st, None)
  | item :: rest =>
      match load_item st item with
      | (st, None) => load_items st rest
      | (st, Some e) => (st, Some e)
      end
  end.

Definition initial (s : Store) : state :=
  {| store := s; successful := 0; ticks := 0; sent := [];
     out := [PrintLoading] |}.

(** [main]: [file] is what [json.load] makes of the input file and
    [connect] what [create_client] does. *)
Definition main (file : res value) (connect : res unit) (s : Store) : state :=
  let st := initial s in
  match menu_items ← file; _ ← connect; py_iter menu_items with
  | Raise e => print (PrintError e) st
  | Ret menu_items =>
      match load_items st menu_items with
      | (st, None) =>
          print (PrintSummary (successful st) (length menu_items)) st
      | (st, Some e) => print (PrintError e) st
      end
  end.

End Run.

End Loader.

(** ** An environment for the examples

    CPython with NumPy 2.2 or later.  [json_loads] decodes the documents
    that the examples use and rejects every other text; the examples rely
    on a rejection only for texts that are not JSON. *)

Module Sample.
Import Structurer.

(** [["wheat","dairy"]] as JSON text *)
Definition wheat_dairy : string :=
  "[" +:+ quoted "wheat" +:+ "," +:+ quoted "dairy" +:+ "]".

(** A one-record menu, on a line of its own *)
Definition fries : string :=
  nl +:+ "[{" +:+ quoted "id" +:+ ": " +:+ quoted "x" +:+ ", "
     +:+ quoted "name" +:+ ": " +:+ quoted "Fries" +:+ "}]" +:+ nl.

Definition fries_record : value :=
  VDict (<["id" := VStr "x"]> (<["name" := VStr "Fries"]> ∅)).

(** A record followed by a number *)
Definition mixed : string :=
  "[{" +:+ quoted "id" +:+ ": " +:+ quoted "x" +:+ ", "
       +:+ quoted "name" +:+ ": " +:+ quoted "Fries" +:+ "}, 5]".

Definition loads (s : string) : res value :=
  if String.eqb s "[]" then Ret (VList [])
  else if String.eqb s mixed then Ret (VList [fries_record; VInt 5])
  else if String.eqb s wheat_dairy then Ret (VList [VStr "wheat"; VStr "dairy"])
  else if String.eqb s fries then Ret (VList [fries_record])
  else Raise JSONDecodeError.

Definition env : PyEnv :=
  {| np_empty_truth_raises := true;
     np_maxdims := 64;
     repr_container := λ _, "[...]";
     json_loads := loads |}.

(** A small menu table *)
Definition fries_row : row :=
  <["name" := VStr "Waffle Potato Fries"]> (<["category" := VStr "sides"]>
  (<["calories" := VStr "360 Cal"]> (<["is_vegetarian" := VBool true]>
  (<["is_gluten_free" := VBool false]> ∅)))).

Definition nuggets_row : row :=
  <["name" := VStr "Nuggets"]> (<["category" := VStr "entrees"]>
  (<["calories" := VStr "250 Cal"]> (<["is_vegetarian" := VBool false]>
  (<["is_gluten_free" := VBool false]> ∅)))).

Definition soup_row : row :=
  <["name" := VStr "Chicken Soup"]> (<["category" := VStr "sides"]>
  (<["calories" := VStr "170 Cal"]> (<["is_vegetarian" := VBool false]>
  (<["is_gluten_free" := VBool true]> ∅)))).

Definition menu : DataFrame := pd_DataFrame [fries_row; nuggets_row; soup_row].

(** A table that answers every select with the same rows, and one that is
    out of reach. *)
Definition table (rows : list row) : Supabase :=
  {| create_client := λ _ _, Ret (); execute_select := λ _, Ret (Some rows) |}.

Definition unreachable : Supabase :=
  {| create_client := λ _ _, Ret ();
     execute_select := λ _, Raise (RemoteError "connection refused") |}.

(** A table of which the state is its number of rows, and which refuses a
    record with no text [price]; and a batch with such a record in the
    middle. *)
Definition strict_table (n : nat) (item : value)
    : res Loader.response * nat :=
  match getitem item "price" with
  | Ret (VStr _) => (Ret {| Loader.error_attr := None |}, S n)
  | _ => (Raise (RemoteError "invalid input"), n)
  end.

Definition fries_item : row :=
  <["id" := VStr "fries"]> (<["name" := VStr "Fries"]>
  (<["price" := VStr "$2.50"]>
  (<["extracted_at" := VStr "2024-05-01T12:00:00"]> ∅))).

Definition mystery_item : row :=
  <["id" := VStr "mystery"]> (<["name" := VStr "Mystery"]> ∅).

Definition soup_item : row :=
  <["id" := VStr "soup"]> (<["name" := VStr "Soup"]>
  (<["price" := VStr "$4.10"]>
  (<["extracted_at" :=
       VDatetime "2024-05-01 12:00:01" "2024-05-01T12:00:01"]> ∅))).

Definition batch : list value :=
  [VDict fries_item; VDict mystery_item; VDict soup_item].

Definition noon (t : nat) : string :=
  "2024-05-02T12:00:0" +:+ str_of_Z (Z.of_nat t).

End Sample.

(** ** Predicates used to state the properties *)




(** Helpers to relate the pieces of a text and of the same text trimmed:
    [w] put before the first piece, [w] put after the last one, texts with
    no separator and texts of white space. *)
Definition prepend_first (w : list ascii) (ps : list (list ascii)) :=
  match ps with
  | p :: ps' => (w ++ p) :: ps'
  | [] => []
  end.

Fixpoint append_last (w : list ascii) (ps : list (list ascii)) :=
  match ps with
  | [] => []
  | [p] => [p ++ w]
  | p :: ps' => p :: append_last w ps'
  end.

Definition no_sep (sep : ascii) (w : list ascii) : bool :=
  forallb (λ c, negb (Ascii.eqb c sep)) w.

Definition blank (w : list ascii) : bool := forallb Str.is_space w.

(** A text that looks like a JSON array. *)
Definition bracketed (s : string) : bool :=
  Str.startswith s "[" && Str.endswith s "]".

Definition is_dict (x : value) : bool :=
  match x with
  | VDict _ => true
  | _ => false
  end.

(** The row tests behind the filters. *)
Definition category_is (selected_category : string) (r : row) : bool :=
  eq_str (cell r "category") selected_category.

Definition flag_is_true (c : string) (r : row) : bool :=
  eq_True (cell r c).

(** A filter is in force when it is selected and its column is there. *)
Definition passes (df : DataFrame) (selected_category : string)
    (show_vegetarian show_gluten_free : bool) (r : row) : bool :=
  (negb (negb (String.eqb selected_category "All") && has_column df "category")
   || category_is selected_category r)
  && (negb (show_vegetarian && has_column df "is_vegetarian")
      || flag_is_true "is_vegetarian" r)
  && (negb (show_gluten_free && has_column df "is_gluten_free")
      || flag_is_true "is_gluten_free" r).

(** What the loader sends for a record: the record with its [updated_at]
    set and a datetime-like [extracted_at] turned into its ISO string. *)
Definition coerced (d : row) : row :=
  match d !! "extracted_at" with
  | Some (VDatetime _ iso) => <["extracted_at" := VStr iso]> d
  | _ => d
  end.

Definition payload (now : string) (item : value) : value :=
  match Loader.prepare now item with
  | Ret p => p
  | Raise _ => item
  end.

(** Whether an upsert went through. *)
Definition went_through (answer : res Loader.response) : bool :=
  match answer with
  | Ret r => Loader.accepted r
  | Raise _ => false
  end.

(** The outcome of each upsert of a batch, the table being the one the
    previous upserts left. *)
Fixpoint outcomes {Store : Type} (upsert : Store → value → res Loader.response * Store)
    (clock : nat → string) (s : Store) (t : nat) (items : list value) : list bool :=
  match items with
  | [] => []
  | item :: rest =>
      let '(answer, s') := upsert s (payload (clock t) item) in
      went_through answer :: outcomes upsert clock s' (S t) rest
  end.

Definition count_true (l : list bool) : nat := length (List.filter id l).

(** The lines that report a record that did not load. *)
Definition reports_failure (line : stdout) : bool :=
  match line with
  | PrintRejected _ _ | PrintItemError _ _ => true
  | _ => false
  end.

(** The counters of a rendering. *)
Definition counters (r : res (DataFrame * Kpis)) : res Kpis :=
  r ≫= λ p, Ret p.2.

(** * More of the code

    ** Dashboard: the start of [main] (lines 39 to 50) *)

Inductive screen : Type :=
  | PageTitle
  | Shown (u : ui)
  | Caption (rows : nat) (columns : gset string)   (* "Rows fetched: ..." *)
  | NoDataWarning.

(** [df.empty]: no row, or no column. *)
Definition df_empty (df : DataFrame) : bool :=
  match df_rows df with
  | [] => true
  | _ => bool_decide (df_columns df = ∅)
  end.

(** What is shown before the filters, and the table to go on with, if
    any. *)
Definition main_start (SUPABASE_URL SUPABASE_KEY : option string)
    (remote : Supabase) : res (list screen * option DataFrame) :=
  let '(fetched, shown) := get_menu_data SUPABASE_URL SUPABASE_KEY remote in
  df ← fetched;
  let screens :=
    [PageTitle] ++ (Shown <$> shown) ++ [Caption (df_len df) (df_columns df)] in
  if df_empty df then Ret (screens ++ [NoDataWarning], None)
  else Ret (screens, Some df).

(** ** Dashboard: the derived column and the histogram (lines 55 to 58 and
    119 to 129) *)

(** [[f(x) for x in l]], stopping at the first exception. *)
Fixpoint map_res {A B} (f : A → res B) (l : list A) : res (list B) :=
  match l with
  | [] => Ret []
  | x :: rest => y ← f x; ys ← map_res f rest; Ret (y :: ys)
  end.

(** The cell that holds a result of [clean_calories]: the number, or no
    value.  (pandas holds the numbers of a column with a missing value as
    floats; the model keeps the integers they equal.) *)
Definition numeric_cell (v : option Z) : value :=
  match v with
  | Some n => VInt n
  | None => VNaN
  end.

(** Lines 55 to 58: the column [calories_numeric]. *)
Definition derive_calories (env : PyEnv) (df : DataFrame) : res DataFrame :=
  if has_column df "calories" then
    rows ← map_res
             (λ r, v ← clean_calories env (cell r "calories");
                   Ret (<["calories_numeric" := numeric_cell v]> r))
             (df_rows df);
    Ret {| df_columns := {["calories_numeric"]} ∪ df_columns df; df_rows := rows |}
  else
    Ret {| df_columns := {["calories_numeric"]} ∪ df_columns df;
           df_rows := (λ r, <["calories_numeric" := VNaN]> r) <$> df_rows df |}.

(** Lines 121 to 129: the values of the calories histogram, or none when
    the message is shown in its place. *)
Definition histogram_values (filtered_df : DataFrame) : option (list value) :=
  let cal :=
    if has_column filtered_df "calories_numeric"
    then dropna (column filtered_df "calories_numeric") else [] in
  match cal with
  | [] => None
  | _ => Some cal
  end.

(** ** Dashboard: the category selector (lines 64 to 66) *)

(** [series.unique()]: the values in the order in which they first occur. *)
Fixpoint unique_go (seen : list value) (cells : list value) : list value :=
  match cells with
  | [] => []
  | x :: rest =>
      if existsb (key_eq x) seen then unique_go seen rest
      else x :: unique_go (x :: seen) rest
  end.

Definition unique_values (cells : list value) : res (list value) :=
  if forallb hashable cells then Ret (unique_go [] cells)
  else Raise TypeError.

(** The list handed to [sorted] for the category selector (line 66). *)
Definition category_candidates (env : PyEnv) (df : DataFrame) : res (list value) :=
  if has_column df "category" then
    present ← unique_values (dropna (column df "category"));
    Ret (List.filter (λ c, Str.nonempty (Str.strip (py_str env c))) present)
  else Ret [].

(** [x < y].  Two numbers compare by value and two strings by code points;
    a comparison with [nan] is false; what [<] does between two datetimes or
    two lists is left to the interpreter, [lt_other]; every other pair is a
    [TypeError]. *)
Definition py_lt (lt_other : value → value → res bool) (x y : value) : res bool :=
  match x, y with
  | VStr s, VStr t => Ret (String.ltb s t)
  | (VBool _ | VInt _), (VBool _ | VInt _) =>
      Ret (default 0 (as_num x) <? default 0 (as_num y))
  | VNaN, (VNaN | VBool _ | VInt _) | (VBool _ | VInt _), VNaN => Ret false
  | VDatetime _ _, VDatetime _ _ | VList _, VList _ => lt_other x y
  | _, _ => Raise TypeError
  end.

(** A stable sort by insertion: [x] goes before the first element that it
    is less than.  Python's [sorted] and NumPy's stable [argsort] give the
    same list whenever the comparisons made define an order, and raise, as
    this one does, when the list mixes values of kinds that cannot be
    compared. *)
Fixpoint insert_sorted {A} (lt : A → A → res bool) (x : A) (sorted : list A)
    : res (list A) :=
  match sorted with
  | [] => Ret [x]
  | y :: rest =>
      b ← lt x y;
      if (b : bool) then Ret (x :: sorted)
      else rest' ← insert_sorted lt x rest; Ret (y :: rest')
  end.

Fixpoint sort_into {A} (lt : A → A → res bool) (sorted : list A) (l : list A)
    : res (list A) :=
  match l with
  | [] => Ret sorted
  | x :: rest => sorted ← insert_sorted lt x sorted; sort_into lt sorted rest
  end.

Definition stable_sort {A} (lt : A → A → res bool) (l : list A) : res (list A) :=
  sort_into lt [] l.

(** The entries of the category selector (lines 64 to 66). *)
Definition category_options (lt_other : value → value → res bool)
    (env : PyEnv) (df : DataFrame) : res (list value) :=
  candidates ← category_candidates env df;
  sorted ← stable_sort (py_lt lt_other) candidates;
  Ret (VStr "All" :: sorted).

(** ** Dashboard: the table shown (lines 95 to 101) *)

(** [df.sort_values(c, kind="stable")]: the rows with a value in [c], in
    order, then the rows with none, as they were. *)
Definition sort_values (lt_other : value → value → res bool) (c : string)
    (rows : list row) : res (list row) :=
  sorted ← stable_sort (λ r1 r2, py_lt lt_other (cell r1 c) (cell r2 c))
              (List.filter (λ r, negb (checknull (cell r c))) rows);
  Ret (sorted ++ List.filter (λ r, checknull (cell r c)) rows).

Definition display_columns : list string :=
  ["name"; "category"; "price"; "calories"; "is_vegetarian"; "is_gluten_free"].

(** [df[columns]] on a row. *)
Definition restrict (columns : list string) (r : row) : row :=
  filter (λ kv, kv.1 ∈ columns) r.

Definition menu_table (lt_other : value → value → res bool)
    (filtered_df : DataFrame) : res (list string * list row) :=
  let available := List.filter (has_column filtered_df) display_columns in
  match available with
  | [] => Ret ([], [])
  | _ =>
      let rows := restrict available <$> df_rows filtered_df in
      if bool_decide ("category" ∈ available) then
        rows ← sort_values lt_other "category" rows;
        Ret (available, rows)
      else Ret (available, rows)
  end.

(** ** Dashboard: item details (lines 160 to 191) *)

Definition name_options (filtered_df : DataFrame) : res (list value) :=
  if has_column filtered_df "name"
  then unique_values (dropna (column filtered_df "name"))
  else Ret [].

(** [row.get(k, dflt)] for [row = item.iloc[0].to_dict()]: the dict has a
    key for every column of the table. *)
Definition row_get (df : DataFrame) (r : row) (k : string) (dflt : value) : value :=
  if has_column df k then cell r k else dflt.

Record details : Type := {
  shown_category : value;
  shown_price : value;
  shown_calories : value;
  shown_allergens : list value;
  shown_description : value;
  shown_dietary : list string
}.

Definition details_of (df : DataFrame) (r : row) : details :=
  {| shown_category := row_get df r "category" (VStr "N/A");
     shown_price := row_get df r "price" (VStr "N/A");
     shown_calories := row_get df r "calories" (VStr "N/A");
     shown_allergens :=
       match row_get df r "allergens" VNone with
       | VList l => l
       | _ => []
       end;
     shown_description :=
       row_get df r "description" (VStr "No description available");
     shown_dietary :=
       (if truthy (row_get df r "is_vegetarian" VNone) then ["Vegetarian"] else [])
       ++ (if truthy (row_get df r "is_gluten_free" VNone) then ["Gluten-Free"] else [])
  |}.

(** The panel for the name selected, a text: the first row of that name. *)
Definition item_details (filtered_df : DataFrame) (selected_item : string)
    : option details :=
  match List.filter (λ r, eq_str (cell r "name") selected_item)
          (df_rows filtered_df) with
  | [] => None
  | r :: _ => Some (details_of filtered_df r)
  end.

(** ** Structurer: [save_json] and the script (lines 77 to 96) *)



Module StructurerScript.



Inductive line : Type :=
  | Printed (l : stdout)
  | Saved (n : nat) (filename : string)
  | Success
  | NoData
  | RunCollectorFirst.



End StructurerScript.

(** ** Predicates used to state the further properties *)

Definition is_summary (line : stdout) : bool :=
  match line with
  | PrintSummary _ _ => true
  | _ => false
  end.

Definition is_ok_line (line : stdout) : bool :=
  match line with
  | PrintOk _ => true
  | _ => false
  end.

Definition has_name (x : value) : bool :=
  match x with
  | VDict d => bool_decide (is_Some (d !! "name"))
  | _ => false
  end.

(** What the structurer adds to a record. *)
Definition annotated (now : string) (item : value) : value :=
  match item with
  | VDict d =>
      VDict (<["extracted_at" := VStr now]>
               (<["source_url" := VStr Structurer.source_url]> d))
  | _ => item
  end.


(** A flag cell: a Boolean, or no value. *)
Definition is_flag (x : value) : bool :=
  match x with
  | VBool _ | VNone | VNaN => true
  | _ => false
  end.

(** A tag that survives the comma encoding: not empty, with no comma and
    no white space around it. *)
Definition plain_tag (t : string) : bool :=
  Str.nonempty t && no_sep "," (Str.to_list t) && String.eqb (Str.strip t) t.

(** The calories of a row, when [clean_calories] finds some. *)
Definition calories_of (env : PyEnv) (r : row) : option Z :=
  match clean_calories env (cell r "calories") with
  | Ret (Some n) => Some n
  | _ => None
  end.

Definition with_calories (env : PyEnv) (r : row) : row :=
  <["calories_numeric" := numeric_cell (calories_of env r)]> r.

Definition text_or_missing (x : value) : bool :=
  match x with
  | VStr _ | VNone | VNaN => true
  | _ => false
  end.

(** The order of a sorted text column: texts in code-point order, then the
    cells with no value. *)
Definition cell_le (x y : value) : bool :=
  match x, y with
  | VStr s, VStr t => String.leb s t
  | _, _ => checknull y
  end.

Definition text_key (c : string) (r : row) : string :=
  match cell r c with
  | VStr s => s
  | _ => ""
  end.

Definition text_of (x : value) : string :=
  match x with
  | VStr s => s
  | _ => ""
  end.

Definition is_text (x : value) : bool :=
  match x with
  | VStr _ => true
  | _ => false
  end.

(** The order of a list sorted by a text key, and the elements of one key. *)
Definition key_le {A : Type} (key : A → string) (x y : A) : Prop :=
  String.leb (key x) (key y) = true.

Definition with_key {A : Type} (key : A → string) (k : string) (x : A) : bool :=
  String.eqb (key x) k.

(** ** More sample data *)

Module Fixture.

(** A text of 4000 characters *)
Definition long_text : string := Str.of_list (replicate 4000 "a"%char).

(** A reply of the model in a fence *)
Definition fenced_fries : string :=
  "```json" +:+ Sample.fries +:+ "```" +:+ Structurer.nl.

Definition fenced_model : Structurer.llm := λ _, Ret [Some fenced_fries].


(** A record with no [is_vegetarian], after one that has it *)
Definition lemonade_row : row :=
  <["name" := VStr "Lemonade"]> (<["category" := VStr "drinks"]> ∅).

Definition drinks : DataFrame := pd_DataFrame [Sample.fries_row; lemonade_row].

(** A record with no [name] *)
Definition anonymous_item : row := <["id" := VStr "x"]> ∅.

(** An interpreter in which no two dates and no two lists compare *)
Definition no_order (x y : value) : res bool := Raise TypeError.

End Fixture.

(** * Properties *)

(** ** The exception monad *)

Lemma bind_ret {A B} (a : A) (f : A → res B) : Ret a ≫= f = f a.
Proof. reflexivity. Qed.

Lemma bind_raise {A B} (e : exn) (f : A → res B) : Raise e ≫= f = Raise e.
Proof. reflexivity. Qed.

(** ** Strings *)

Lemma to_list_of_list l : Str.to_list (Str.of_list l) = l.
Proof. apply String.list_ascii_of_string_of_list_ascii. Qed.

Lemma of_list_to_list s : Str.of_list (Str.to_list s) = s.
Proof. apply String.string_of_list_ascii_of_string. Qed.

Lemma to_list_app s t : Str.to_list (s +:+ t) = Str.to_list s ++ Str.to_list t.
Proof. induction s as [|c s IH]; simpl; [done|]. by rewrite <- IH. Qed.

Lemma digit_value_range c : Str.is_digit c = true → 0 ≤ Str.digit_value c ≤ 9.
Proof.
  unfold Str.is_digit, Str.digit_value.
  intros [H1 H2]%andb_true_iff.
  apply Nat.leb_le in H1, H2. lia.
Qed.

Lemma digits_value_nonneg l :
  forallb Str.is_digit l = true → 0 ≤ Str.digits_value l.
Proof.
  unfold Str.digits_value.
  assert (G : ∀ acc, 0 ≤ acc → forallb Str.is_digit l = true →
              0 ≤ foldl (λ a c, 10 * a + Str.digit_value c) acc l).
  { induction l as [|c l IH]; simpl; intros acc Hacc H; [done|].
    apply andb_true_iff in H as [Hc Hl].
    apply IH; [|done]. pose proof (digit_value_range c Hc). lia. }
  apply G. lia.
Qed.

(** ** The digit runs of a text *)





Lemma forallb_reverse {A} (p : A → bool) l :
  forallb p (reverse l) = forallb p l.
Proof.
  induction l as [|x l IH]; [done|].
  rewrite reverse_cons, forallb_app, IH. simpl. by destruct (p x), (forallb p l).
Qed.

Lemma findall_go_digits cur l :
  forallb Str.is_digit cur = true →
  Forall (λ run, forallb Str.is_digit run = true) (Str.findall_go cur l).
Proof.
  revert cur. induction l as [|c l IH]; simpl; intros cur Hcur.
  - destruct cur; [constructor|]. constructor; [|constructor].
    by rewrite forallb_reverse.
  - destruct (Str.is_digit c) eqn:Hc.
    + apply IH. simpl. by rewrite Hc.
    + destruct cur; [by apply IH|].
      constructor; [by rewrite forallb_reverse | by apply IH].
Qed.


Lemma first_run_nonneg s :
  ∃ r : option Z,
    try_except
      match Str.findall_digits s with
      | n :: _ => Ret (Some (Str.int_of_digits n))
      | [] => Ret None
      end (λ _, Ret None) = Ret r
    ∧ ∀ n, r = Some n → 0 ≤ n.
Proof.
  unfold Str.findall_digits.
  pose proof (findall_go_digits [] (Str.to_list s) eq_refl) as Hall.
  destruct (Str.findall_go [] (Str.to_list s)) as [|run more]; simpl.
  - exists None. by split.
  - eexists. split; [done|]. intros n [= <-].
    unfold Str.int_of_digits. rewrite to_list_of_list.
    apply digits_value_nonneg. by inversion Hall.
Qed.

(** ** [clean_calories] *)



(** C10, as the code has it: for every input that is not a list
    ([None], [nan], a Boolean, an integer, a string, a datetime, a dict),
    [clean_calories] returns, without raising, either none or a
    non-negative integer. *)
Theorem clean_calories_never_raises_off_lists (env : PyEnv) (v : value) :
  as_list v = None →
  ∃ r : option Z, clean_calories env v = Ret r ∧ ∀ n, r = Some n → 0 ≤ n.
Proof.
  intros Hv. unfold clean_calories.
  destruct v; try discriminate; simpl;
    try (exists None; by split);
    apply first_run_nonneg.
Qed.

Lemma clean_calories_never_raises_off_lists_witness :
  as_list (VInt (-42)) = None
  ∧ ∃ r : option Z,
      clean_calories Sample.env (VInt (-42)) = Ret r ∧ ∀ n, r = Some n → 0 ≤ n.
Proof.
  split; [reflexivity|].
  apply (clean_calories_never_raises_off_lists Sample.env (VInt (-42))).
  reflexivity.
Defined.

(** C10 as stated fails on a list of two values: [pd.isna] answers with
    an array, whose truth value is an error raised outside the [try]. *)
Lemma clean_calories_raises_on_list :
  clean_calories Sample.env (VList [VInt 230; VInt 360]) = Raise ValueError.
Proof. reflexivity. Qed.

(** ** Splitting a trimmed text

    Trimming a text before it is split on commas changes only the white
    space around its first and last pieces. *)

Lemma split_go_acc sep cur l :
  Str.split_go sep cur l = prepend_first (reverse cur) (Str.split_go sep [] l).
Proof.
  revert cur. induction l as [|c l IH]; intros cur; simpl.
  - by rewrite app_nil_r.
  - destruct (Ascii.eqb c sep); simpl.
    + by rewrite app_nil_r.
    + rewrite (IH (c :: cur)), (IH [c]).
      destruct (Str.split_go sep [] l); simpl; [done|].
      by rewrite reverse_cons, <- app_assoc.
Qed.

Lemma split_go_cons sep l : ∃ p ps, Str.split_go sep [] l = p :: ps.
Proof.
  induction l as [|c l (p & ps & IH)]; simpl; [by eexists _, _|].
  destruct (Ascii.eqb c sep); [by eexists _, _|].
  rewrite split_go_acc, IH. simpl. by eexists _, _.
Qed.

Lemma split_go_app_l sep w l :
  no_sep sep w = true →
  Str.split_go sep [] (w ++ l) = prepend_first w (Str.split_go sep [] l).
Proof.
  induction w as [|c w IH]; simpl; intros H.
  - by destruct (Str.split_go sep [] l).
  - apply andb_true_iff in H as [Hc Hw]. apply negb_true_iff in Hc. rewrite Hc.
    rewrite split_go_acc, IH by done.
    by destruct (Str.split_go sep [] l).
Qed.

Lemma append_last_prepend_first w w' ps :
  append_last w' (prepend_first w ps) = prepend_first w (append_last w' ps).
Proof.
  destruct ps as [|p [|q ps]]; simpl; [done| |done].
  by rewrite app_assoc.
Qed.

Lemma split_go_app_r sep l w :
  no_sep sep w = true →
  Str.split_go sep [] (l ++ w) = append_last w (Str.split_go sep [] l).
Proof.
  intros Hw. induction l as [|c l IH]; simpl.
  - rewrite <- (app_nil_r w) at 1. rewrite split_go_app_l by done. simpl.
    by rewrite app_nil_r.
  - destruct (Ascii.eqb c sep).
    + rewrite IH. destruct (split_go_cons sep l) as (p & ps & ->). done.
    + rewrite (split_go_acc sep [c]), IH, (split_go_acc sep [c] l).
      by rewrite append_last_prepend_first.
Qed.

Lemma blank_no_sep w : blank w = true → no_sep "," w = true.
Proof.
  unfold blank, no_sep. induction w as [|c w IH]; simpl; [done|].
  intros [Hc Hw]%andb_true_iff. rewrite IH by done.
  rewrite andb_true_r. apply negb_true_iff.
  destruct (Ascii.eqb c ",") eqn:E; [|done].
  apply Ascii.eqb_eq in E. subst c. discriminate.
Qed.

Lemma lstrip_split l : ∃ w, l = w ++ Str.lstrip_l l ∧ blank w = true.
Proof.
  induction l as [|c l (w & Hl & Hw)]; simpl.
  - by exists [].
  - destruct (Str.is_space c) eqn:Hc.
    + exists (c :: w). simpl. rewrite Hc, Hw. split; [by f_equal|done].
    + by exists [].
Qed.

Lemma strip_split l :
  ∃ w w', l = w ++ Str.strip_l l ++ w' ∧ blank w = true ∧ blank w' = true.
Proof.
  destruct (lstrip_split l) as (w & Hl & Hw).
  destruct (lstrip_split (reverse (Str.lstrip_l l))) as (v & Hr & Hv).
  exists w, (reverse v). split_and!; [|done|].
  - rewrite Hl at 1. f_equal. unfold Str.strip_l.
    apply (f_equal reverse) in Hr.
    by rewrite reverse_involutive, reverse_app in Hr.
  - unfold blank in *. by rewrite forallb_reverse.
Qed.

Lemma lstrip_blank_l w p : blank w = true → Str.lstrip_l (w ++ p) = Str.lstrip_l p.
Proof.
  induction w as [|c w IH]; simpl; [done|].
  intros [Hc Hw]%andb_true_iff. rewrite Hc. by apply IH.
Qed.

Lemma lstrip_blank w : blank w = true → Str.lstrip_l w = [].
Proof.
  intros Hw. rewrite <- (app_nil_r w). by rewrite lstrip_blank_l.
Qed.

Lemma lstrip_blank_r p w :
  blank w = true →
  Str.lstrip_l (p ++ w)
  = match Str.lstrip_l p with [] => [] | q => q ++ w end.
Proof.
  intros Hw. induction p as [|c p IH]; simpl.
  - by apply lstrip_blank.
  - destruct (Str.is_space c); [done|]. done.
Qed.

Lemma strip_blank_l w p : blank w = true → Str.strip_l (w ++ p) = Str.strip_l p.
Proof. intros Hw. unfold Str.strip_l. by rewrite lstrip_blank_l. Qed.

Lemma strip_blank_r p w : blank w = true → Str.strip_l (p ++ w) = Str.strip_l p.
Proof.
  intros Hw. unfold Str.strip_l. rewrite lstrip_blank_r by done.
  destruct (Str.lstrip_l p) as [|c q] eqn:Hp; [done|].
  rewrite reverse_app, lstrip_blank_l; [done|].
  unfold blank. by rewrite forallb_reverse.
Qed.

Lemma strip_prepend_first w ps :
  blank w = true → Str.strip_l <$> prepend_first w ps = Str.strip_l <$> ps.
Proof.
  intros Hw. destruct ps as [|p ps]; simpl; [done|].
  by rewrite strip_blank_l.
Qed.

Lemma strip_append_last w ps :
  blank w = true → Str.strip_l <$> append_last w ps = Str.strip_l <$> ps.
Proof.
  intros Hw. induction ps as [|p [|q ps] IH]; [done| |].
  - simpl. by rewrite strip_blank_r.
  - change (append_last w (p :: q :: ps)) with (p :: append_last w (q :: ps)).
    rewrite !fmap_cons. by rewrite IH.
Qed.

Lemma strip_pieces l :
  Str.strip_l <$> Str.split_go "," [] (Str.strip_l l)
  = Str.strip_l <$> Str.split_go "," [] l.
Proof.
  destruct (strip_split l) as (w & w' & Hl & Hw & Hw').
  rewrite Hl at 2.
  rewrite split_go_app_l, split_go_app_r by by apply blank_no_sep.
  by rewrite strip_prepend_first, strip_append_last.
Qed.

Lemma split_tags_strip s : split_tags (Str.strip s) = split_tags s.
Proof.
  unfold split_tags, Str.split, Str.strip.
  rewrite to_list_of_list, <- !list_fmap_compose.
  do 2 f_equal.
  transitivity (Str.of_list <$> (Str.strip_l <$> Str.split_go "," [] (Str.strip_l (Str.to_list s)))).
  - rewrite <- list_fmap_compose. apply list_fmap_ext. intros i p _. simpl.
    unfold Str.strip. by rewrite to_list_of_list.
  - rewrite strip_pieces, <- list_fmap_compose. apply list_fmap_ext.
    intros i p _. simpl. unfold Str.strip. by rewrite to_list_of_list.
Qed.

(** ** Allergen tags *)

(** C2, as the code has it: a list is used as it is, so that normalising
    twice changes nothing; a string that, once the white space around it is
    trimmed, starts with "[" and ends with "]" is JSON-decoded, and ignored
    when decoding fails; any other string is split on commas, each tag
    trimmed and the empty ones dropped, which for the empty string leaves
    no tag. *)
Theorem row_allergens_by_shape (env : PyEnv) :
  (∀ l, row_allergens env (VList l) = l)
  ∧ (∀ l, row_allergens env (VList (row_allergens env (VList l)))
          = row_allergens env (VList l))
  ∧ (∀ s, bracketed (Str.strip s) = true →
       row_allergens env (VStr s)
       = match json_loads env (Str.strip s) ≫= py_iter with
         | Ret tags => tags
         | Raise _ => []
         end)
  ∧ (∀ s, bracketed (Str.strip s) = false →
       row_allergens env (VStr s) = split_tags s)
  ∧ row_allergens env (VList [VStr "wheat"; VStr "dairy"])
    = [VStr "wheat"; VStr "dairy"]
  ∧ row_allergens env (VStr "wheat, dairy") = [VStr "wheat"; VStr "dairy"]
  ∧ row_allergens env (VStr "") = []
  ∧ (json_loads env Sample.wheat_dairy = Ret (VList [VStr "wheat"; VStr "dairy"]) →
     row_allergens env (VStr Sample.wheat_dairy) = [VStr "wheat"; VStr "dairy"]).
Proof.
  split_and!; try reflexivity.
  - intros s Hs. unfold row_allergens, bracketed in *. simpl. by rewrite Hs.
  - intros s Hs. rewrite <- split_tags_strip.
    unfold row_allergens, bracketed in *. simpl. rewrite Hs.
    by destruct (Str.strip s).
  - intros Hdoc. unfold row_allergens.
    change (Str.strip (py_str env (VStr Sample.wheat_dairy)))
      with Sample.wheat_dairy.
    change (Str.startswith Sample.wheat_dairy "[" && Str.endswith Sample.wheat_dairy "]")
      with true.
    simpl. by rewrite Hdoc.
Qed.

Lemma row_allergens_by_shape_witness :
  let s := " " +:+ Sample.wheat_dairy +:+ " " in
  bracketed (Str.strip s) = true
  ∧ bracketed (Str.strip "soy , , egg") = false
  ∧ json_loads Sample.env Sample.wheat_dairy
    = Ret (VList [VStr "wheat"; VStr "dairy"])
  ∧ row_allergens Sample.env (VStr s) = [VStr "wheat"; VStr "dairy"]
  ∧ row_allergens Sample.env (VStr "soy , , egg") = [VStr "soy"; VStr "egg"]
  ∧ row_allergens Sample.env (VStr Sample.wheat_dairy)
    = [VStr "wheat"; VStr "dairy"].
Proof.
  pose proof (row_allergens_by_shape Sample.env) as (_ & _ & Hjson & Hsplit & _ & _ & _ & Hdoc).
  do 3 (split; [reflexivity|]).
  split; [|split].
  - exact (Hjson (" " +:+ Sample.wheat_dairy +:+ " ") eq_refl).
  - exact (Hsplit "soy , , egg" eq_refl).
  - exact (Hdoc eq_refl).
Defined.

(** C2 as stated fails on an array text with white space before it: it
    neither starts with "[" nor is empty, and it is JSON-decoded, not split
    on commas. *)
Lemma padded_array_text_is_decoded :
  let s := " " +:+ Sample.wheat_dairy in
  bracketed s = false
  ∧ Str.nonempty s = true
  ∧ row_allergens Sample.env (VStr s) = [VStr "wheat"; VStr "dairy"]
  ∧ split_tags s
    = [VStr ("[" +:+ Structurer.quoted "wheat");
       VStr (Structurer.quoted "dairy" +:+ "]")].
Proof. by vm_compute. Qed.

(** ** Structurer: code fences *)










(** ** Structurer: failures *)

(** C4: whatever fails in the structuring call (the request, a response
    with no choice or no content, the JSON parse, a decoded document that is
    not a sequence of records), [structure_menu_simple] returns the empty
    list and prints the error; nothing of the items already annotated is
    returned. *)
Theorem failure_gives_empty_list (env : PyEnv) (model : Structurer.llm)
    (clock : nat → string) (text_blob : string) :
  (∀ e, model (Structurer.prompt (Str.take 4000 text_blob)) = Raise e →
     Structurer.structure_menu_simple env model clock text_blob
     = (VList [], [PrintError e]))
  ∧ (∀ choices e,
       model (Structurer.prompt (Str.take 4000 text_blob)) = Ret choices →
       Structurer.first_content choices = Raise e →
       Structurer.structure_menu_simple env model clock text_blob
       = (VList [], [PrintError e]))
  ∧ (∀ choices result e,
       model (Structurer.prompt (Str.take 4000 text_blob)) = Ret choices →
       Structurer.first_content choices = Ret result →
       json_loads env (Structurer.clean_fences result) = Raise e →
       Structurer.structure_menu_simple env model clock text_blob
       = (VList [], [PrintError e]))
  ∧ (∀ choices result menu_data e,
       model (Structurer.prompt (Str.take 4000 text_blob)) = Ret choices →
       Structurer.first_content choices = Ret result →
       json_loads env (Structurer.clean_fences result) = Ret menu_data →
       py_iter menu_data ≫= Structurer.add_metadata clock 0 = Raise e →
       Structurer.structure_menu_simple env model clock text_blob
       = (VList [], [PrintError e]))
  ∧ (∀ e, Structurer.structure_body env model clock text_blob = Raise e →
       Structurer.structure_menu_simple env model clock text_blob
       = (VList [], [PrintError e])).
Proof.
  unfold Structurer.structure_menu_simple, Structurer.structure_body.
  split_and!.
  - by intros e ->.
  - intros choices e -> Hc. by rewrite bind_ret, Hc.
  - intros choices result e -> Hc Hj. by rewrite bind_ret, Hc, bind_ret, Hj.
  - intros choices result menu_data e -> Hc Hj Hiter.
    rewrite bind_ret, Hc, bind_ret, Hj, bind_ret.
    destruct (py_iter menu_data) as [items|e'].
    + rewrite !bind_ret in *. by rewrite Hiter.
    + rewrite bind_raise in *. by inversion Hiter.
  - by intros e ->.
Qed.

Lemma failure_gives_empty_list_witness :
  let apology : Structurer.llm := λ _, Ret [Some "Sorry, I cannot read this menu."] in
  let partial : Structurer.llm := λ _, Ret [Some Sample.mixed] in
  let clock := λ _ : nat, "2024-05-01T12:00:00" in
  json_loads Sample.env
    (Structurer.clean_fences "Sorry, I cannot read this menu.")
  = Raise JSONDecodeError
  ∧ json_loads Sample.env (Structurer.clean_fences Sample.mixed)
    = Ret (VList [Sample.fries_record; VInt 5])
  ∧ py_iter (VList [Sample.fries_record; VInt 5])
      ≫= Structurer.add_metadata clock 0 = Raise TypeError
  ∧ Structurer.structure_menu_simple Sample.env apology clock "Waffle Potato Fries"
    = (VList [], [PrintError JSONDecodeError])
  ∧ Structurer.structure_menu_simple Sample.env partial clock "Waffle Potato Fries"
    = (VList [], [PrintError TypeError]).
Proof.
  intros apology partial clock.
  do 3 (split; [reflexivity|]).
  split.
  - exact (proj1 (proj2 (proj2
      (failure_gives_empty_list Sample.env apology clock "Waffle Potato Fries")))
      _ _ JSONDecodeError eq_refl eq_refl eq_refl).
  - exact (proj1 (proj2 (proj2 (proj2
      (failure_gives_empty_list Sample.env partial clock "Waffle Potato Fries"))))
      _ _ _ TypeError eq_refl eq_refl eq_refl eq_refl).
Defined.

(** ** Dashboard: filters *)

Lemma filter_filter {A} (f g : A → bool) l :
  List.filter f (List.filter g l) = List.filter (λ x, g x && f x) l.
Proof.
  induction l as [|x l IH]; simpl; [done|].
  destruct (g x); simpl; [|done]. destruct (f x); by rewrite IH.
Qed.

Lemma filter_same {A} (f g : A → bool) l :
  (∀ x, f x = g x) → List.filter f l = List.filter g l.
Proof.
  intros H. induction l as [|x l IH]; simpl; [done|]. by rewrite H, IH.
Qed.

Lemma filter_all {A} (l : list A) : List.filter (λ _, true) l = l.
Proof. induction l as [|x l IH]; simpl; [done|]. by rewrite IH. Qed.

Lemma filter_none {A} (f : A → bool) l :
  Forall (λ x, f x = false) l → List.filter f l = [].
Proof.
  induction 1 as [|x l Hx _ IH]; simpl; [done|]. by rewrite Hx.
Qed.

Lemma apply_filters_passes df sel veg gf :
  apply_filters df sel veg gf = select_rows (passes df sel veg gf) df.
Proof.
  unfold apply_filters, passes, select_rows, has_column,
    category_is, flag_is_true.
  destruct df as [cols rows]; cbn.
  destruct (negb (String.eqb sel "All") && bool_decide ("category" ∈ cols)); cbn;
    (destruct (veg && bool_decide ("is_vegetarian" ∈ cols)); cbn);
    (destruct (gf && bool_decide ("is_gluten_free" ∈ cols)); cbn);
    f_equal; rewrite ?filter_filter;
    try (apply filter_same; intros r;
         by repeat match goal with
                   | |- context [eq_str ?a ?b] => destruct (eq_str a b)
                   | |- context [eq_True ?a] => destruct (eq_True a)
                   end).
  etrans; [symmetry; apply filter_all|]. by apply filter_same.
Qed.



(** ** Dashboard: counters *)

(** C9: the four counters are those of the full table: whatever category
    is selected and whichever toggles are on, the rendering has the counters
    of [kpi_row df], so two selections give the same four values. *)
Theorem counters_ignore_filters (df : DataFrame)
    (selected_category selected_category' : string)
    (show_vegetarian show_gluten_free show_vegetarian' show_gluten_free' : bool) :
  counters (filters_then_kpis df selected_category show_vegetarian show_gluten_free)
  = kpi_row df
  ∧ counters (filters_then_kpis df selected_category show_vegetarian show_gluten_free)
    = counters (filters_then_kpis df selected_category' show_vegetarian'
                  show_gluten_free').
Proof.
  assert (H : ∀ sel veg gf, counters (filters_then_kpis df sel veg gf) = kpi_row df).
  { intros sel veg gf. unfold counters, filters_then_kpis.
    destruct (kpi_row df) as [k|e]; reflexivity. }
  split; [apply H|]. by rewrite !H.
Qed.

(** The counters of the sample menu, with and without filters, and those
    of the filtered table, which differ. *)
Example counters_of_menu :
  counters (filters_then_kpis Sample.menu "sides" true false)
  = Ret {| total_menu_items := 3; categories := 2;
           vegetarian_options := 1; gluten_free_options := 1 |}
  ∧ kpi_row (apply_filters Sample.menu "sides" true false)
    = Ret {| total_menu_items := 1; categories := 1;
             vegetarian_options := 1; gluten_free_options := 0 |}.
Proof. by vm_compute. Qed.

(** ** Dashboard: [get_menu_data] *)

(** C8: [get_menu_data] returns a table and never raises.  When either
    environment variable is missing (unset or empty) it shows an error and
    returns the empty table; when creating the client or running the select
    raises, it shows the error and returns the empty table. *)
Theorem get_menu_data_never_raises (SUPABASE_URL SUPABASE_KEY : option string)
    (remote : Supabase) :
  ∃ df, (get_menu_data SUPABASE_URL SUPABASE_KEY remote).1 = Ret df
  ∧ (env_missing SUPABASE_URL || env_missing SUPABASE_KEY = true →
     get_menu_data SUPABASE_URL SUPABASE_KEY remote
     = (Ret empty_frame,
        [StError "Missing SUPABASE_URL or SUPABASE_KEY in environment."]))
  ∧ (∀ url key e,
       SUPABASE_URL = Some url → SUPABASE_KEY = Some key →
       env_missing SUPABASE_URL || env_missing SUPABASE_KEY = false →
       create_client remote url key ≫= execute_select remote = Raise e →
       get_menu_data SUPABASE_URL SUPABASE_KEY remote
       = (Ret empty_frame,
          [StErrorExn "Error fetching data from Supabase: " e]))
  ∧ (∀ url key data,
       SUPABASE_URL = Some url → SUPABASE_KEY = Some key →
       env_missing SUPABASE_URL || env_missing SUPABASE_KEY = false →
       create_client remote url key ≫= execute_select remote = Ret data →
       get_menu_data SUPABASE_URL SUPABASE_KEY remote
       = (Ret (pd_DataFrame (default [] data)), [])).
Proof.
  unfold get_menu_data.
  destruct (env_missing SUPABASE_URL || env_missing SUPABASE_KEY) eqn:Hmiss.
  - exists empty_frame. split_and!; [done|done|..]; intros; discriminate.
  - destruct SUPABASE_URL as [url|], SUPABASE_KEY as [key|];
      try (simpl in Hmiss; rewrite ?orb_true_r in Hmiss; discriminate).
    simpl.
    destruct (create_client remote url key) as [sb|e] eqn:Hc; simpl.
    + destruct (execute_select remote sb) as [data|e] eqn:Hs; simpl.
      * eexists; split_and!; [done|done|..].
        -- intros ??? [= <-] [= <-] _. rewrite Hc; simpl. by rewrite Hs.
        -- intros ??? [= <-] [= <-] _. rewrite Hc; simpl. rewrite Hs.
           by intros [= <-].
      * eexists; split_and!; [done|done|..].
        -- intros ??? [= <-] [= <-] _. rewrite Hc; simpl. rewrite Hs.
           by intros [= <-].
        -- intros ??? [= <-] [= <-] _. rewrite Hc; simpl. by rewrite Hs.
    + eexists; split_and!; [done|done|..].
      * intros ??? [= <-] [= <-] _. rewrite Hc; simpl. by intros [= <-].
      * intros ??? [= <-] [= <-] _. by rewrite Hc.
Qed.

Lemma get_menu_data_never_raises_witness :
  env_missing (Some "") || env_missing (Some "service-key") = true
  ∧ get_menu_data (Some "") (Some "service-key") (Sample.table [Sample.fries_row])
    = (Ret empty_frame,
       [StError "Missing SUPABASE_URL or SUPABASE_KEY in environment."])
  ∧ get_menu_data (Some "https://db.example") (Some "service-key") Sample.unreachable
    = (Ret empty_frame,
       [StErrorExn "Error fetching data from Supabase: "
          (RemoteError "connection refused")])
  ∧ get_menu_data (Some "https://db.example") (Some "service-key")
      (Sample.table [Sample.fries_row])
    = (Ret (pd_DataFrame [Sample.fries_row]), []).
Proof.
  split; [reflexivity|].
  split; [|split].
  - destruct (get_menu_data_never_raises (Some "") (Some "service-key")
                (Sample.table [Sample.fries_row])) as (df & _ & Hmiss & _).
    exact (Hmiss eq_refl).
  - destruct (get_menu_data_never_raises (Some "https://db.example")
                (Some "service-key") Sample.unreachable) as (df & _ & _ & Hexn & _).
    exact (Hexn _ _ _ eq_refl eq_refl eq_refl eq_refl).
  - destruct (get_menu_data_never_raises (Some "https://db.example")
                (Some "service-key") (Sample.table [Sample.fries_row]))
      as (df & _ & _ & _ & Hok).
    exact (Hok _ _ (Some [Sample.fries_row]) eq_refl eq_refl eq_refl eq_refl).
Defined.

(** ** Loader *)

Lemma prepare_record now d :
  Loader.prepare now (VDict d)
  = Ret (VDict (coerced (<["updated_at" := VStr now]> d))).
Proof.
  unfold Loader.prepare, coerced. simpl.
  destruct (<["updated_at" := VStr now]> d !! "extracted_at") as [[]|]; done.
Qed.

Lemma payload_record now d :
  payload now (VDict d) = VDict (coerced (<["updated_at" := VStr now]> d)).
Proof. unfold payload. by rewrite prepare_record. Qed.

Section LoaderFacts.
Context {Store : Type}.
Variable upsert : Store → value → res Loader.response * Store.
Variable clock : nat → string.

Lemma load_item_record (st : Loader.state) d :
  let p := payload (clock (Loader.ticks st)) (VDict d) in
  let ok := went_through (upsert (Loader.store st) p).1 in
  ∃ st' line,
    Loader.load_item upsert clock st (VDict d) = (st', None)
    ∧ Loader.ticks st' = S (Loader.ticks st)
    ∧ Loader.store st' = (upsert (Loader.store st) p).2
    ∧ Loader.sent st' = Loader.sent st ++ [p]
    ∧ Loader.successful st' = (Loader.successful st + if ok then 1 else 0)%nat
    ∧ Loader.out st' = Loader.out st ++ [line]
    ∧ (ok = false → reports_failure line = true).
Proof.
  intros p ok. subst p ok. rewrite payload_record.
  unfold Loader.load_item, Loader.try_item.
  rewrite prepare_record. simpl.
  destruct (upsert _ _) as [[r|e] s]; simpl.
  - destruct (Loader.accepted r); simpl;
      destruct (coerced _ !! "name") as [name|]; simpl;
      eexists _, _; split_and!; try reflexivity; simpl; try done; lia.
  - eexists _, _; split_and!; try reflexivity; simpl; try done; lia.
Qed.

End LoaderFacts.

Section LoaderBatch.
Context {Store : Type}.
Variable upsert : Store → value → res Loader.response * Store.
Variable clock : nat → string.

Lemma load_items_records (st : Loader.state) items :
  forallb is_dict items = true →
  let oks := outcomes upsert clock (Loader.store st) (Loader.ticks st) items in
  ∃ st' lines,
    Loader.load_items upsert clock st items = (st', None)
    ∧ Loader.sent st'
      = Loader.sent st
        ++ imap (λ i item, payload (clock (Loader.ticks st + i)) item) items
    ∧ Loader.successful st' = (Loader.successful st + count_true oks)%nat
    ∧ Loader.out st' = Loader.out st ++ lines
    ∧ Forall2 (λ (ok : bool) line, ok = false → reports_failure line = true)
        oks lines.
Proof.
  revert st. induction items as [|item items IH]; intros st Hrec; simpl.
  - exists st, []. rewrite !app_nil_r. split_and!; try done.
  - simpl in Hrec. apply andb_true_iff in Hrec as [Hd Hrest].
    destruct item as [| | | | | | |d]; try discriminate.
    destruct (load_item_record upsert clock st d)
      as (st1 & line & Hstep & Hticks & Hstore & Hsent & Hcount & Hout & Hline).
    destruct (IH st1 Hrest) as (st' & lines & Hrun & Hsent' & Hcount' & Hout' & Hlines).
    rewrite Hticks, Hstore in *.
    destruct (upsert (Loader.store st) (payload (clock (Loader.ticks st)) (VDict d)))
      as [answer s] eqn:Hup; simpl in *.
    exists st', (line :: lines). rewrite Hstep. split_and!.
    + exact Hrun.
    + rewrite Hsent', Hsent, <- app_assoc. simpl. do 2 f_equal.
      * by rewrite Nat.add_0_r.
      * apply imap_ext. intros i x _. simpl. do 2 f_equal. lia.
    + rewrite Hcount', Hcount. unfold count_true. simpl.
      destruct (went_through answer); simpl; lia.
    + by rewrite Hout', Hout, <- app_assoc.
    + by constructor.
Qed.

End LoaderBatch.

(** C6: the loader goes through a whole array of records whatever
    happens to each upsert.  Every record is sent, in order; a record whose
    upsert raised or was answered with an error gets a line of its own
    reporting it; and the last line printed is the summary, with the number
    of upserts that went through and the number of records. *)
Theorem batch_survives_failures {Store : Type}
    (upsert : Store → value → res Loader.response * Store)
    (clock : nat → string) (s : Store) (items : list value) :
  forallb is_dict items = true →
  ∃ lines,
    Loader.sent (Loader.main upsert clock (Ret (VList items)) (Ret ()) s)
    = imap (λ i item, payload (clock i) item) items
    ∧ Loader.out (Loader.main upsert clock (Ret (VList items)) (Ret ()) s)
      = [PrintLoading] ++ lines
        ++ [PrintSummary (count_true (outcomes upsert clock s 0 items))
              (length items)]
    ∧ Forall2 (λ (ok : bool) line, ok = false → reports_failure line = true)
        (outcomes upsert clock s 0 items) lines.
Proof.
  intros Hrec.
  destruct (load_items_records upsert clock (Loader.initial s) items Hrec)
    as (st' & lines & Hrun & Hsent & Hcount & Hout & Hlines).
  exists lines. unfold Loader.main. simpl. rewrite Hrun. simpl.
  rewrite Hsent, Hout, Hcount. simpl. by split_and!.
Qed.

Lemma batch_survives_failures_witness :
  forallb is_dict Sample.batch = true
  ∧ outcomes Sample.strict_table Sample.noon 0%nat 0 Sample.batch
    = [true; false; true]
  ∧ ∃ lines,
      Loader.sent (Loader.main Sample.strict_table Sample.noon
                     (Ret (VList Sample.batch)) (Ret ()) 0%nat)
      = imap (λ i item, payload (Sample.noon i) item) Sample.batch
      ∧ Loader.out (Loader.main Sample.strict_table Sample.noon
                      (Ret (VList Sample.batch)) (Ret ()) 0%nat)
        = [PrintLoading] ++ lines
          ++ [PrintSummary
                (count_true (outcomes Sample.strict_table Sample.noon 0%nat 0
                               Sample.batch))
                (length Sample.batch)]
      ∧ Forall2 (λ (ok : bool) line, ok = false → reports_failure line = true)
          (outcomes Sample.strict_table Sample.noon 0%nat 0 Sample.batch) lines.
Proof.
  do 2 (split; [reflexivity|]).
  exact (batch_survives_failures Sample.strict_table Sample.noon 0%nat
           Sample.batch eq_refl).
Defined.

(** The run of the sample batch: the second record fails and is reported,
    the third is still loaded, and the summary counts two of three. *)
Example batch_run :
  Loader.out (Loader.main Sample.strict_table Sample.noon
                (Ret (VList Sample.batch)) (Ret ()) 0%nat)
  = [PrintLoading; PrintOk (VStr "Fries");
     PrintItemError (VStr "Mystery") (RemoteError "invalid input");
     PrintOk (VStr "Soup"); PrintSummary 2 3]
  ∧ Loader.store (Loader.main Sample.strict_table Sample.noon
                    (Ret (VList Sample.batch)) (Ret ()) 0%nat) = 2%nat.
Proof. by vm_compute. Qed.

(** An element that is not a record stops the batch: the handler of the
    loop raises in its turn, and no summary is printed. *)
Example batch_of_numbers :
  Loader.out (Loader.main Sample.strict_table Sample.noon
                (Ret (VList [VInt 1; VInt 2])) (Ret ()) 0%nat)
  = [PrintLoading; PrintError AttributeError].
Proof. by vm_compute. Qed.

(** C7: before the upsert the loader sets [updated_at] to the current
    time and replaces a datetime [extracted_at] by its ISO string; every
    other field is sent as it was read.  Loading the same record at two
    times therefore sends records that differ in [updated_at] at most. *)
Theorem loader_changes_only_timestamps (now now' : string) (d : row) :
  ∃ p p' : row,
    Loader.prepare now (VDict d) = Ret (VDict p)
    ∧ Loader.prepare now' (VDict d) = Ret (VDict p')
    ∧ p !! "updated_at" = Some (VStr now)
    ∧ p !! "extracted_at"
      = match d !! "extracted_at" with
        | Some (VDatetime _ iso) => Some (VStr iso)
        | other => other
        end
    ∧ (∀ k, k ≠ "updated_at" → k ≠ "extracted_at" → p !! k = d !! k)
    ∧ (∀ k, k ≠ "updated_at" → p !! k = p' !! k)
    ∧ (∀ (Store : Type) (upsert : Store → value → res Loader.response * Store)
         (clock : nat → string) (st : Loader.state),
         clock (Loader.ticks st) = now →
         ∃ st', Loader.load_item upsert clock st (VDict d) = (st', None)
                ∧ Loader.sent st' = Loader.sent st ++ [VDict p]).
Proof.
  exists (coerced (<["updated_at" := VStr now]> d)),
         (coerced (<["updated_at" := VStr now']> d)).
  rewrite !prepare_record.
  assert (Hlook : ∀ t k,
            coerced (<["updated_at" := VStr t]> d) !! k
            = if decide (k = "updated_at") then Some (VStr t)
              else if decide (k = "extracted_at")
                   then match d !! "extracted_at" with
                        | Some (VDatetime _ iso) => Some (VStr iso)
                        | other => other
                        end
                   else d !! k).
  { intros t k. unfold coerced.
    rewrite (lookup_insert_ne _ "updated_at" "extracted_at") by done.
    destruct (d !! "extracted_at") as [[]|] eqn:Hx;
      repeat case_decide; subst; simplify_map_eq; done. }
  split_and!.
  - done.
  - done.
  - by rewrite Hlook.
  - by rewrite Hlook.
  - intros k H1 H2. rewrite Hlook. by repeat case_decide.
  - intros k H1. rewrite !Hlook. by repeat case_decide.
  - intros Store upsert clock st <-.
    destruct (load_item_record upsert clock st d)
      as (st' & line & Hstep & _ & _ & Hsent & _).
    exists st'. split; [done|]. by rewrite Hsent, payload_record.
Qed.

Lemma loader_changes_only_timestamps_witness :
  "price" ≠ "updated_at"
  ∧ "price" ≠ "extracted_at"
  ∧ Sample.noon 0 = "2024-05-02T12:00:00"
  ∧ ∃ p p' : row,
      Loader.prepare "2024-05-02T12:00:00" (VDict Sample.soup_item) = Ret (VDict p)
      ∧ Loader.prepare "2024-06-11T08:30:00" (VDict Sample.soup_item) = Ret (VDict p')
      ∧ p !! "updated_at" = Some (VStr "2024-05-02T12:00:00")
      ∧ p !! "extracted_at" = Some (VStr "2024-05-01T12:00:01")
      ∧ p !! "price" = Some (VStr "$4.10")
      ∧ p !! "price" = p' !! "price"
      ∧ ∃ st',
          Loader.load_item Sample.strict_table Sample.noon (Loader.initial 0%nat)
            (VDict Sample.soup_item) = (st', None)
          ∧ Loader.sent st' = [VDict p].
Proof.
  assert (H1 : "price" ≠ "updated_at") by discriminate.
  assert (H2 : "price" ≠ "extracted_at") by discriminate.
  do 2 (split; [done|]). split; [reflexivity|].
  destruct (loader_changes_only_timestamps
              "2024-05-02T12:00:00" "2024-06-11T08:30:00" Sample.soup_item)
    as (p & p' & Hp & Hp' & Hupd & Hext & Hframe & Hreload & Hsent).
  exists p, p'. split_and!.
  - exact Hp.
  - exact Hp'.
  - exact Hupd.
  - exact Hext.
  - exact (Hframe "price" H1 H2).
  - exact (Hreload "price" H1).
  - exact (Hsent nat Sample.strict_table Sample.noon (Loader.initial 0%nat) eq_refl).
Defined.

(** * Further properties *)

(** ** Loader: the whole batch *)

Local Open Scope Z_scope.

Section LoaderMore.

Context {Store : Type}.

Variable upsert : Store → value → res Loader.response * Store.

Variable clock : nat → string.

Lemma load_items_app (st : Loader.state) pre rest :
  Loader.load_items upsert clock st (pre ++ rest)
  = match Loader.load_items upsert clock st pre with
    | (st', None) => Loader.load_items upsert clock st' rest
    | stopped => stopped
    end.
Proof.
  revert st. induction pre as [|x pre IH]; intros st; simpl; [done|].
  destruct (Loader.load_item upsert clock st x) as [st' [e|]]; [done|].
  apply IH.
Qed.

Lemma load_item_non_record (st : Loader.state) x :
  is_dict x = false →
  Loader.load_item upsert clock st x = (Loader.tick st, Some AttributeError).
Proof. by destruct x. Qed.

Lemma load_item_no_summary (st st' : Loader.state) x r :
  Loader.load_item upsert clock st x = (st', r) →
  existsb is_summary (Loader.out st) = false →
  existsb is_summary (Loader.out st') = false.
Proof.
  unfold Loader.load_item, Loader.try_item.
  destruct (Loader.prepare _ x) as [p|e]; simpl.
  - destruct (upsert _ p) as [[a|e] s]; simpl.
    + destruct (Loader.accepted a); simpl;
        destruct (getitem p "name"); simpl;
        try destruct (dict_get x "name" _); simpl;
        intros [= <- <-]; simpl; rewrite ?existsb_app; simpl;
        by intros ->.
    + destruct (dict_get x "name" _); simpl;
        intros [= <- <-]; simpl; rewrite ?existsb_app; simpl; by intros ->.
  - destruct (dict_get x "name" _); simpl;
      intros [= <- <-]; simpl; rewrite ?existsb_app; simpl; by intros ->.
Qed.

Lemma load_items_no_summary (st st' : Loader.state) items r :
  Loader.load_items upsert clock st items = (st', r) →
  existsb is_summary (Loader.out st) = false →
  existsb is_summary (Loader.out st') = false.
Proof.
  revert st. induction items as [|x items IH]; intros st; simpl.
  - by intros [= <- <-].
  - destruct (Loader.load_item upsert clock st x) as [st1 [e|]] eqn:Hx.
    + intros [= <- <-]. by eapply load_item_no_summary.
    + intros Hrun Hst. eapply IH; [done|]. by eapply load_item_no_summary.
Qed.

Lemma load_items_stops (st : Loader.state) items :
  forallb is_dict items = false →
  ∃ st', Loader.load_items upsert clock st items = (st', Some AttributeError).
Proof.
  revert st. induction items as [|x items IH]; intros st; simpl; [done|].
  destruct (is_dict x) eqn:Hx; simpl.
  - intros Hrest. destruct x; try discriminate.
    destruct (load_item_record upsert clock st d) as (st1 & line & -> & _).
    by apply IH.
  - intros _. rewrite load_item_non_record by done. by eexists.
Qed.

End LoaderMore.

(** X1: The loader prints a summary line exactly when the input file was read,
    the client was created, the document could be iterated and every one of
    its elements is a record (a dict). *)
Theorem summary_iff_all_records {Store : Type}
    (upsert : Store → value → res Loader.response * Store)
    (clock : nat → string) (file : res value) (connect : res unit) (s : Store) :
  existsb is_summary (Loader.out (Loader.main upsert clock file connect s)) = true
  ↔ ∃ items, (menu_items ← file; _ ← connect; py_iter menu_items) = Ret items
             ∧ forallb is_dict items = true.
Proof.
  unfold Loader.main.
  destruct (menu_items ← file; _ ← connect; py_iter menu_items) as [items|e].
  - destruct (forallb is_dict items) eqn:Hrec.
    + destruct (load_items_records upsert clock (Loader.initial s) items Hrec)
        as (st' & lines & -> & _).
      split; [by exists items|]. intros _. simpl.
      rewrite existsb_app. simpl. by rewrite orb_true_r.
    + destruct (load_items_stops upsert clock (Loader.initial s) items Hrec)
        as (st' & Hrun).
      rewrite Hrun. simpl. rewrite existsb_app. simpl. rewrite orb_false_r.
      rewrite (load_items_no_summary upsert clock _ _ _ _ Hrun) by done.
      split; [done|]. intros (items' & [= <-] & H). congruence.
  - simpl. split; [done|]. by intros (items & ? & _).
Qed.

Lemma coerced_stamped_lookup now (d : row) k :
  k ≠ "updated_at" → k ≠ "extracted_at" →
  coerced (<["updated_at" := VStr now]> d) !! k = d !! k.
Proof.
  intros H1 H2. unfold coerced.
  destruct (<["updated_at" := VStr now]> d !! "extracted_at") as [[]|];
    by rewrite ?lookup_insert_ne by done.
Qed.

Lemma outcomes_length {Store : Type}
    (upsert : Store → value → res Loader.response * Store)
    (clock : nat → string) (s : Store) (t : nat) (items : list value) :
  length (outcomes upsert clock s t items) = length items.
Proof.
  revert s t. induction items as [|y items IH]; intros s t; simpl; [done|].
  destruct (upsert s _) as [a s1]. simpl. by rewrite IH.
Qed.

(** X2: When the elements before the first one that is not a record are all
    records, the loader sends exactly these records, with their timestamps,
    counts those that went through, prints one line for each, and ends with
    the error line of an AttributeError in place of the summary: nothing after
    that element is sent. *)
Theorem batch_stops_at_non_record {Store : Type}
    (upsert : Store → value → res Loader.response * Store)
    (clock : nat → string) (s : Store) (pre post : list value) (x : value) :
  forallb is_dict pre = true → is_dict x = false →
  Loader.sent (Loader.main upsert clock (Ret (VList (pre ++ x :: post))) (Ret ()) s)
  = imap (λ i item, payload (clock i) item) pre
  ∧ Loader.successful
      (Loader.main upsert clock (Ret (VList (pre ++ x :: post))) (Ret ()) s)
    = count_true (outcomes upsert clock s 0 pre)
  ∧ ∃ lines,
      Loader.out (Loader.main upsert clock (Ret (VList (pre ++ x :: post))) (Ret ()) s)
      = [PrintLoading] ++ lines ++ [PrintError AttributeError]
      ∧ length lines = length pre.
Proof.
  intros Hpre Hx. unfold Loader.main. simpl.
  rewrite load_items_app.
  destruct (load_items_records upsert clock (Loader.initial s) pre Hpre)
    as (st' & lines & -> & Hsent & Hcount & Hout & Hlines).
  simpl. rewrite load_item_non_record by done. simpl.
  rewrite Hsent, Hcount, Hout. simpl. split_and!; [done..|].
  exists lines. split; [done|].
  apply Forall2_length in Hlines. rewrite <- Hlines.
  apply outcomes_length.
Qed.

Lemma batch_stops_at_non_record_witness :
  let batch := [VDict Sample.fries_item] ++ VInt 5 :: [VDict Sample.soup_item] in
  let st := Loader.main Sample.strict_table Sample.noon (Ret (VList batch))
              (Ret ()) 0%nat in
  forallb is_dict [VDict Sample.fries_item] = true
  ∧ is_dict (VInt 5) = false
  ∧ Loader.sent st = [payload (Sample.noon 0) (VDict Sample.fries_item)]
  ∧ Loader.successful st = 1%nat
  ∧ ∃ lines,
      Loader.out st = [PrintLoading] ++ lines ++ [PrintError AttributeError]
      ∧ length lines = 1%nat.
Proof.
  intros batch st.
  do 2 (split; [reflexivity|]).
  exact (batch_stops_at_non_record Sample.strict_table Sample.noon 0%nat
           [VDict Sample.fries_item] [VDict Sample.soup_item] (VInt 5)
           eq_refl eq_refl).
Defined.

(** X3: A record with no name is sent like any other and the batch goes on
    after it. Its line is the failure line for the name "unknown", with the
    exception of the upsert if it raised one and a KeyError otherwise; it is
    counted as loaded when the upsert went through. *)
Theorem nameless_record {Store : Type}
    (upsert : Store → value → res Loader.response * Store)
    (clock : nat → string) (st : Loader.state) (d : row) :
  d !! "name" = None →
  ∃ st' e,
    Loader.load_item upsert clock st (VDict d) = (st', None)
    ∧ Loader.out st'
      = Loader.out st ++ [PrintItemError (VStr "unknown") e]
    ∧ e = match (upsert (Loader.store st)
                   (payload (clock (Loader.ticks st)) (VDict d))).1 with
          | Ret _ => KeyError
          | Raise e' => e'
          end
    ∧ Loader.successful st'
      = (Loader.successful st
         + if went_through
                (upsert (Loader.store st)
                   (payload (clock (Loader.ticks st)) (VDict d))).1
           then 1 else 0)%nat.
Proof.
  intros Hname. rewrite payload_record.
  unfold Loader.load_item, Loader.try_item.
  rewrite prepare_record. simpl.
  rewrite coerced_stamped_lookup, Hname by done. simpl.
  destruct (upsert _ _) as [[r|e] s]; simpl.
  - destruct (Loader.accepted r); simpl; eexists _, _;
      split_and!; try reflexivity; simpl; lia.
  - eexists _, _; split_and!; try reflexivity; simpl; lia.
Qed.

Lemma nameless_record_witness :
  Fixture.anonymous_item !! "name" = None
  ∧ ∃ st' e,
      Loader.load_item Sample.strict_table Sample.noon (Loader.initial 0%nat)
        (VDict Fixture.anonymous_item) = (st', None)
      ∧ Loader.out st' = [PrintLoading; PrintItemError (VStr "unknown") e]
      ∧ e = RemoteError "invalid input"
      ∧ Loader.successful st' = 0%nat.
Proof.
  split; [reflexivity|].
  exact (nameless_record Sample.strict_table Sample.noon (Loader.initial 0%nat)
           Fixture.anonymous_item eq_refl).
Defined.

Section LoaderNamed.

Context {Store : Type}.

Variable upsert : Store → value → res Loader.response * Store.

Variable clock : nat → string.

Lemma load_item_named (st : Loader.state) d :
  is_Some (d !! "name") →
  ∃ st' line,
    Loader.load_item upsert clock st (VDict d) = (st', None)
    ∧ Loader.ticks st' = S (Loader.ticks st)
    ∧ Loader.store st'
      = (upsert (Loader.store st) (payload (clock (Loader.ticks st)) (VDict d))).2
    ∧ Loader.out st' = Loader.out st ++ [line]
    ∧ is_ok_line line
      = went_through
          (upsert (Loader.store st) (payload (clock (Loader.ticks st)) (VDict d))).1.
Proof.
  intros [name Hname]. rewrite payload_record.
  unfold Loader.load_item, Loader.try_item.
  rewrite prepare_record. simpl.
  rewrite coerced_stamped_lookup, Hname by done. simpl.
  destruct (upsert _ _) as [[r|e] s]; simpl.
  - destruct (Loader.accepted r); simpl; by eexists _, _.
  - by eexists _, _.
Qed.

Lemma load_items_named (st : Loader.state) items :
  forallb has_name items = true →
  ∃ st' lines,
    Loader.load_items upsert clock st items = (st', None)
    ∧ Loader.out st' = Loader.out st ++ lines
    ∧ is_ok_line <$> lines
      = outcomes upsert clock (Loader.store st) (Loader.ticks st) items.
Proof.
  revert st. induction items as [|x items IH]; intros st Hn; simpl.
  - exists st, []. by rewrite app_nil_r.
  - simpl in Hn. apply andb_true_iff in Hn as [Hx Hrest].
    destruct x as [| | | | | | |d]; try discriminate.
    apply bool_decide_eq_true in Hx.
    destruct (load_item_named st d Hx) as (st1 & line & -> & Ht & Hs & Ho & Hl).
    destruct (IH st1 Hrest) as (st' & lines & -> & Ho' & Hl').
    exists st', (line :: lines). split_and!; [done| |].
    + by rewrite Ho', Ho, <- app_assoc.
    + rewrite fmap_cons, Hl', Hl, Ht, Hs.
      by destruct (upsert _ _).
Qed.

End LoaderNamed.

(** X4: When every element is a record with a name, the loader prints one line
    for each record and then the summary, and the first number of the summary
    is the number of lines marked as loaded. *)
Theorem summary_counts_ok_lines {Store : Type}
    (upsert : Store → value → res Loader.response * Store)
    (clock : nat → string) (s : Store) (items : list value) :
  forallb has_name items = true →
  ∃ lines,
    Loader.out (Loader.main upsert clock (Ret (VList items)) (Ret ()) s)
    = [PrintLoading] ++ lines
      ++ [PrintSummary (length (List.filter is_ok_line lines)) (length items)]
    ∧ length lines = length items
    ∧ List.filter is_summary lines = [].
Proof.
  intros Hn.
  assert (Hrec : forallb is_dict items = true).
  { clear -Hn. induction items as [|x items IH]; [done|]. simpl in *.
    apply andb_true_iff in Hn as [Hx Hr]. rewrite IH by done.
    by destruct x. }
  destruct (load_items_named upsert clock (Loader.initial s) items Hn)
    as (st' & lines & Hrun & Hout & Hok).
  destruct (load_items_records upsert clock (Loader.initial s) items Hrec)
    as (st2 & lines2 & Hrun2 & _ & Hcount & _).
  rewrite Hrun in Hrun2. injection Hrun2 as <-.
  exists lines. unfold Loader.main. simpl. rewrite Hrun. simpl.
  rewrite Hout, Hcount. simpl in *.
  assert (Hc : count_true (outcomes upsert clock s 0 items)
               = length (List.filter is_ok_line lines)).
  { rewrite <- Hok. unfold count_true. clear.
    induction lines as [|l lines IH]; [done|].
    rewrite fmap_cons. cbn [List.filter]. unfold id at 1.
    destruct (is_ok_line l); cbn [length]; by rewrite IH. }
  rewrite Hc. split_and!; [done| |].
  - apply (f_equal length) in Hok. rewrite length_fmap in Hok. rewrite Hok.
    apply outcomes_length.
  - pose proof (load_items_no_summary upsert clock _ _ _ _ Hrun eq_refl) as Hno.
    rewrite Hout in Hno. simpl in Hno.
    clear -Hno. induction lines as [|l lines IH]; simpl in *; [done|].
    apply orb_false_iff in Hno as [-> Hno]. by apply IH.
Qed.

Lemma summary_counts_ok_lines_witness :
  forallb has_name Sample.batch = true
  ∧ ∃ lines,
      Loader.out (Loader.main Sample.strict_table Sample.noon
                    (Ret (VList Sample.batch)) (Ret ()) 0%nat)
      = [PrintLoading] ++ lines
        ++ [PrintSummary (length (List.filter is_ok_line lines)) 3]
      ∧ length lines = 3%nat
      ∧ List.filter is_summary lines = [].
Proof.
  split; [reflexivity|].
  exact (summary_counts_ok_lines Sample.strict_table Sample.noon 0%nat
           Sample.batch eq_refl).
Defined.

(** ** Structurer: the records, the script and the length of the text *)

Lemma add_metadata_annotated clock t items :
  forallb is_dict items = true →
  Structurer.add_metadata clock t items
  = Ret (imap (λ i item, annotated (clock (t + i)%nat) item) items).
Proof.
  revert t. induction items as [|x items IH]; intros t H; [done|].
  simpl in H. apply andb_true_iff in H as [Hx Hr].
  destruct x as [| | | | | | |d]; try discriminate.
  simpl. rewrite IH by done. simpl. rewrite Nat.add_0_r. do 2 f_equal.
  apply imap_ext. intros i y _. simpl. do 2 f_equal. lia.
Qed.


(** X5: When the reply of the model decodes to a list of records,
    structure_menu_simple returns these records in order and prints nothing;
    each record has source_url set to the constant address, extracted_at set
    to the time read for it, and every other field as decoded. *)
Theorem records_are_annotated (env : PyEnv) (model : Structurer.llm)
    (clock : nat → string) (text_blob : string)
    (choices : list (option string)) (result : string) (items : list value) :
  model (Structurer.prompt (Str.take 4000 text_blob)) = Ret choices →
  Structurer.first_content choices = Ret result →
  json_loads env (Structurer.clean_fences result) = Ret (VList items) →
  forallb is_dict items = true →
  Structurer.structure_menu_simple env model clock text_blob
  = (VList (imap (λ i item, annotated (clock i) item) items), [])
  ∧ (∀ i d, items !! i = Some (VDict d) →
       ∃ d' : row,
         imap (λ i item, annotated (clock i) item) items !! i = Some (VDict d')
         ∧ d' !! "source_url" = Some (VStr Structurer.source_url)
         ∧ d' !! "extracted_at" = Some (VStr (clock i))
         ∧ ∀ k, k ≠ "source_url" → k ≠ "extracted_at" → d' !! k = d !! k).
Proof.
  intros Hm Hc Hj Hrec. split.
  - unfold Structurer.structure_menu_simple, Structurer.structure_body.
    rewrite Hm, bind_ret, Hc, bind_ret, Hj, bind_ret. simpl.
    by rewrite add_metadata_annotated.
  - intros i d Hi. eexists. rewrite list_lookup_imap, Hi. simpl.
    split_and!; [done| | |].
    + by rewrite lookup_insert_ne, lookup_insert_eq.
    + by rewrite lookup_insert_eq.
    + intros k H1 H2. by rewrite !lookup_insert_ne.
Qed.

Lemma records_are_annotated_witness :
  let clock := λ _ : nat, "2024-05-01T12:00:00" in
  Fixture.fenced_model
    (Structurer.prompt (Str.take 4000 "Waffle Potato Fries 360 Cal"))
  = Ret [Some Fixture.fenced_fries]
  ∧ Structurer.first_content [Some Fixture.fenced_fries]
    = Ret (Str.strip Fixture.fenced_fries)
  ∧ json_loads Sample.env
      (Structurer.clean_fences (Str.strip Fixture.fenced_fries))
    = Ret (VList [Sample.fries_record])
  ∧ forallb is_dict [Sample.fries_record] = true
  ∧ Structurer.structure_menu_simple Sample.env Fixture.fenced_model clock
      "Waffle Potato Fries 360 Cal"
    = (VList [annotated "2024-05-01T12:00:00" Sample.fries_record], []).
Proof.
  intros clock.
  do 4 (split; [reflexivity|]).
  exact (proj1 (records_are_annotated Sample.env Fixture.fenced_model clock
                  "Waffle Potato Fries 360 Cal" [Some Fixture.fenced_fries]
                  (Str.strip Fixture.fenced_fries) [Sample.fries_record]
                  eq_refl eq_refl eq_refl eq_refl)).
Defined.


Lemma add_metadata_first_not_record clock t x items :
  is_dict x = false → ∃ e, Structurer.add_metadata clock t (x :: items) = Raise e.
Proof. destruct x; try discriminate; intros _; by eexists. Qed.









Lemma take_app_long n (s extra : string) :
  (n ≤ length (Str.to_list s))%nat → Str.take n (s +:+ extra) = Str.take n s.
Proof.
  intros H. unfold Str.take. rewrite to_list_app. by rewrite take_app_le.
Qed.

(** X7: Of a text of 4000 characters or more only the first 4000 reach the
    model: whatever follows changes neither the result of
    structure_menu_simple nor what it prints. *)
Theorem text_after_4000_is_ignored (env : PyEnv) (model : Structurer.llm)
    (clock : nat → string) (text_blob extra : string) :
  (4000 <=? length (Str.to_list text_blob))%nat = true →
  Structurer.structure_menu_simple env model clock (text_blob +:+ extra)
  = Structurer.structure_menu_simple env model clock text_blob.
Proof.
  intros H%Nat.leb_le.
  unfold Structurer.structure_menu_simple, Structurer.structure_body.
  by rewrite take_app_long.
Qed.

Lemma text_after_4000_is_ignored_witness :
  (4000 <=? length (Str.to_list Fixture.long_text))%nat = true
  ∧ Structurer.structure_menu_simple Sample.env Fixture.fenced_model
      (λ _, "2024-05-01T12:00:00") (Fixture.long_text +:+ "Nuggets 250 Cal")
    = Structurer.structure_menu_simple Sample.env Fixture.fenced_model
        (λ _, "2024-05-01T12:00:00") Fixture.long_text.
Proof.
  assert (H : (4000 <=? length (Str.to_list Fixture.long_text))%nat = true)
    by (vm_compute; reflexivity).
  split; [exact H|].
  exact (text_after_4000_is_ignored Sample.env Fixture.fenced_model
           (λ _, "2024-05-01T12:00:00") Fixture.long_text "Nuggets 250 Cal" H).
Defined.

(** ** Dashboard: counters and toggles *)

Lemma py_add_num x y a b :
  as_num x = Some a → as_num y = Some b → py_add x y = Ret (VInt (a + b)).
Proof. unfold py_add. by intros -> ->. Qed.

Lemma flag_as_num x :
  is_flag x = true →
  as_num (if checknull x then VInt 0 else x)
  = Some (if eq_True x then 1 else 0).
Proof. by destruct x as [| |[]| | | | |]. Qed.

Lemma add_all_flags acc n cells :
  as_num acc = Some n → forallb is_flag cells = true →
  ∃ v, add_all acc ((λ x, if checknull x then VInt 0 else x) <$> cells) = Ret v
       ∧ as_num v = Some (n + Z.of_nat (length (List.filter eq_True cells))).
Proof.
  revert acc n. induction cells as [|x cells IH]; intros acc n Hacc Hc.
  - exists acc. split; [done|]. rewrite Hacc. simpl. f_equal. lia.
  - simpl in Hc. apply andb_true_iff in Hc as [Hx Hrest].
    rewrite fmap_cons. cbn [add_all].
    rewrite (py_add_num _ _ _ _ Hacc (flag_as_num x Hx)), bind_ret.
    destruct (IH (VInt (n + (if eq_True x then 1 else 0))) _ eq_refl Hrest)
      as (v & -> & Hv).
    exists v. split; [done|]. rewrite Hv. f_equal. cbn [List.filter].
    destruct (eq_True x); cbn [length]; lia.
Qed.

Lemma py_int_num v n : as_num v = Some n → py_int v = Ret n.
Proof. by destruct v; intros [= <-]. Qed.

Lemma sum_of_flags cells :
  forallb is_flag cells = true →
  series_sum cells ≫= py_int
  = Ret (Z.of_nat (length (List.filter eq_True cells))).
Proof.
  intros Hc. unfold series_sum.
  destruct cells as [|x cells]; [done|].
  simpl in Hc. apply andb_true_iff in Hc as [Hx Hrest].
  rewrite fmap_cons.
  destruct (add_all_flags _ _ cells (flag_as_num x Hx) Hrest) as (v & -> & Hv).
  rewrite bind_ret, (py_int_num _ _ Hv). f_equal. cbn [List.filter].
  destruct (eq_True x); cbn [length]; lia.
Qed.

Lemma filter_column (f : value → bool) c rows :
  length (List.filter f ((λ r, cell r c) <$> rows))
  = length (List.filter (λ r, f (cell r c)) rows).
Proof.
  induction rows as [|r rows IH]; [done|]. rewrite fmap_cons. simpl.
  destruct (f (cell r c)); simpl; by rewrite IH.
Qed.

Lemma bind_ret_inv {A B} (m : res A) (f : A → res B) (b : B) :
  m ≫= f = Ret b → ∃ a, m = Ret a ∧ f a = Ret b.
Proof. destruct m as [a|e]; [by exists a|discriminate]. Qed.

(** X8: When a flag column holds only Booleans and missing values, the
    Vegetarian Options (Gluten-Free Options) counter is the number of rows
    that the Vegetarian Only (Gluten-Free Only) toggle keeps under the
    category "All". *)
Theorem flag_counters_match_filters (df : DataFrame) (k : Kpis) :
  kpi_row df = Ret k →
  (has_column df "is_vegetarian" = true →
   forallb is_flag (column df "is_vegetarian") = true →
   vegetarian_options k = Z.of_nat (df_len (apply_filters df "All" true false)))
  ∧ (has_column df "is_gluten_free" = true →
     forallb is_flag (column df "is_gluten_free") = true →
     gluten_free_options k = Z.of_nat (df_len (apply_filters df "All" false true))).
Proof.
  unfold kpi_row. intros Hk.
  apply bind_ret_inv in Hk as (ncat & _ & Hk).
  apply bind_ret_inv in Hk as (veg & Hveg & Hk).
  apply bind_ret_inv in Hk as (gf & Hgf & Hk).
  injection Hk as <-. simpl.
  split; intros Hcol Hflags.
  - rewrite Hcol, sum_of_flags in Hveg by done. injection Hveg as <-.
    rewrite apply_filters_passes. unfold df_len, select_rows, passes; simpl.
    rewrite Hcol. simpl. unfold column. rewrite filter_column.
    do 2 f_equal. apply filter_same. intros r. unfold flag_is_true.
    by rewrite andb_true_r.
  - rewrite Hcol, sum_of_flags in Hgf by done. injection Hgf as <-.
    rewrite apply_filters_passes. unfold df_len, select_rows, passes; simpl.
    rewrite Hcol. simpl. unfold column. rewrite filter_column.
    do 2 f_equal; try by apply filter_same.
Qed.

Lemma flag_counters_match_filters_witness :
  let k := {| total_menu_items := 3; categories := 2;
              vegetarian_options := 1; gluten_free_options := 1 |} in
  kpi_row Sample.menu = Ret k
  ∧ has_column Sample.menu "is_vegetarian" = true
  ∧ forallb is_flag (column Sample.menu "is_vegetarian") = true
  ∧ vegetarian_options k
    = Z.of_nat (df_len (apply_filters Sample.menu "All" true false)).
Proof.
  intros k.
  do 3 (split; [reflexivity|]).
  exact (proj1 (flag_counters_match_filters Sample.menu k eq_refl)
           eq_refl eq_refl).
Defined.

(** ** Dashboard: composing the filters *)

Lemma filter_sublist {A} (f : A → bool) l : List.filter f l `sublist_of` l.
Proof.
  induction l as [|x l IH]; simpl; [done|].
  destruct (f x); by constructor.
Qed.

Lemma filter_and_sublist {A} (f g : A → bool) l :
  List.filter (λ x, f x && g x) l `sublist_of` List.filter f l.
Proof.
  induction l as [|x l IH]; simpl; [done|].
  destruct (f x); simpl; [|done]. destruct (g x); by constructor.
Qed.

Lemma passes_select df keep sel veg gf r :
  passes (select_rows keep df) sel veg gf r = passes df sel veg gf r.
Proof. done. Qed.

Ltac bool_atoms :=
  unfold passes;
  try change (String.eqb "All" "All") with true;
  repeat match goal with
         | |- context [has_column ?d ?c] => destruct (has_column d c)
         | |- context [category_is ?s ?r] => destruct (category_is s r)
         | |- context [flag_is_true ?c ?r] => destruct (flag_is_true c r)
         | |- context [String.eqb ?s "All"] => destruct (String.eqb s "All")
         | b : bool |- _ => destruct b
         end;
  try done.

(** X9: The filters keep the columns and only remove rows, in order; switching
    on both toggles, or choosing a category, keeps no more rows; filtering by
    category and then by the toggles, or the other way round, is filtering at
    once; and filtering twice changes nothing. *)
Theorem filters_compose (df : DataFrame) (selected_category : string)
    (show_vegetarian show_gluten_free : bool) :
  df_columns (apply_filters df selected_category show_vegetarian show_gluten_free)
  = df_columns df
  ∧ df_rows (apply_filters df selected_category show_vegetarian show_gluten_free)
    `sublist_of` df_rows df
  ∧ df_rows (apply_filters df selected_category true true)
    `sublist_of`
    df_rows (apply_filters df selected_category show_vegetarian show_gluten_free)
  ∧ df_rows (apply_filters df selected_category show_vegetarian show_gluten_free)
    `sublist_of` df_rows (apply_filters df "All" show_vegetarian show_gluten_free)
  ∧ apply_filters (apply_filters df selected_category false false) "All"
      show_vegetarian show_gluten_free
    = apply_filters df selected_category show_vegetarian show_gluten_free
  ∧ apply_filters (apply_filters df "All" show_vegetarian show_gluten_free)
      selected_category false false
    = apply_filters df selected_category show_vegetarian show_gluten_free
  ∧ apply_filters
      (apply_filters df selected_category show_vegetarian show_gluten_free)
      selected_category show_vegetarian show_gluten_free
    = apply_filters df selected_category show_vegetarian show_gluten_free.
Proof.
  rewrite !apply_filters_passes.
  assert (Hsub : ∀ f g : row → bool, (∀ r, f r = true → g r = true) →
            List.filter f (df_rows df) `sublist_of` List.filter g (df_rows df)).
  { intros f g H. induction (df_rows df) as [|r l IH]; simpl; [done|].
    destruct (f r) eqn:Hf; [rewrite (H r Hf); by constructor|].
    destruct (g r); [by constructor|done]. }
  split_and!.
  - done.
  - apply filter_sublist.
  - apply Hsub. intros r. unfold passes.
    destruct show_vegetarian, show_gluten_free,
      (has_column df "is_vegetarian"), (has_column df "is_gluten_free"),
      (flag_is_true "is_vegetarian" r), (flag_is_true "is_gluten_free" r);
      simpl; rewrite ?andb_true_r, ?andb_false_r, ?orb_true_r; done.
  - apply Hsub. intros r. unfold passes.
    change (String.eqb "All" "All") with true. cbn [negb andb orb].
    intros H. apply andb_true_iff in H as [H H3].
    apply andb_true_iff in H as [_ H2]. by rewrite H2, H3.
  - unfold select_rows at 1 3 4; simpl. f_equal. rewrite filter_filter.
    apply filter_same. intros r. rewrite passes_select. bool_atoms.
  - unfold select_rows at 1 3 4; simpl. f_equal. rewrite filter_filter.
    apply filter_same. intros r. rewrite passes_select. bool_atoms.
  - unfold select_rows at 1 3 4; simpl. f_equal. rewrite filter_filter.
    apply filter_same. intros r. rewrite passes_select. bool_atoms.
Qed.

(** ** Dashboard: [clean_calories] on integers *)







(** ** Dashboard: allergens as comma text *)

Lemma split_comma_cons l :
  Str.split_go "," [] ("," :: l)%char = [] :: Str.split_go "," [] l.
Proof. reflexivity. Qed.

Lemma split_no_sep sep w :
  no_sep sep w = true → Str.split_go sep [] w = [w].
Proof.
  intros H. pose proof (split_go_app_l sep w [] H) as E.
  rewrite app_nil_r in E. rewrite E. simpl. by rewrite app_nil_r.
Qed.

Lemma split_joined t tags :
  no_sep "," (Str.to_list t) = true →
  forallb (λ u, no_sep "," (Str.to_list u)) tags = true →
  Str.split_go "," [] (Str.to_list (String.concat ", " (t :: tags)))
  = Str.to_list t :: ((λ u, " "%char :: Str.to_list u) <$> tags).
Proof.
  revert t. induction tags as [|u tags IH]; intros t Ht Htags.
  - simpl. by apply split_no_sep.
  - simpl in Htags. apply andb_true_iff in Htags as [Hu Htags].
    change (String.concat ", " (t :: u :: tags))
      with (t +:+ ", " +:+ String.concat ", " (u :: tags)).
    remember (String.concat ", " (u :: tags)) as rest eqn:Hrest.
    rewrite !to_list_app, split_go_app_l by done.
    change (Str.to_list ", " ++ Str.to_list rest)
      with (","%char :: ([" "%char] ++ Str.to_list rest)).
    rewrite split_comma_cons, split_go_app_l by done.
    subst rest. rewrite IH by done. simpl. by rewrite app_nil_r.
Qed.

Lemma strip_of_list l : Str.strip (Str.of_list l) = Str.of_list (Str.strip_l l).
Proof. unfold Str.strip. by rewrite to_list_of_list. Qed.

Lemma plain_tags_survive tags :
  forallb plain_tag tags = true →
  List.filter Str.nonempty
    (Str.strip <$> (Str.of_list <$> ((λ u, " "%char :: Str.to_list u) <$> tags)))
  = tags.
Proof.
  induction tags as [|u tags IH]; [done|].
  intros Hall. apply andb_true_iff in Hall as [Hu Htags].
  unfold plain_tag in Hu. apply andb_true_iff in Hu as [Hu Hstrip].
  apply andb_true_iff in Hu as [Hne _]. apply String.eqb_eq in Hstrip.
  rewrite !fmap_cons, strip_of_list.
  change (" "%char :: Str.to_list u) with ([" "%char] ++ Str.to_list u).
  rewrite strip_blank_l by done.
  change (Str.of_list (Str.strip_l (Str.to_list u))) with (Str.strip u).
  rewrite Hstrip. cbn [List.filter]. rewrite Hne. f_equal. by apply IH.
Qed.

Lemma split_tags_joined tags :
  forallb plain_tag tags = true →
  split_tags (String.concat ", " tags) = VStr <$> tags.
Proof.
  intros Hp. destruct tags as [|t tags]; [done|].
  unfold split_tags, Str.split. f_equal.
  assert (Hsep : forallb (λ u, no_sep "," (Str.to_list u)) (t :: tags) = true).
  { clear -Hp. induction (t :: tags) as [|u l IH]; [done|]. simpl in *.
    apply andb_true_iff in Hp as [Hu Hl]. rewrite IH by done.
    unfold plain_tag in Hu. apply andb_true_iff in Hu as [Hu _].
    apply andb_true_iff in Hu as [_ ->]. done. }
  simpl in Hsep. apply andb_true_iff in Hsep as [Ht Htags].
  rewrite split_joined by done.
  simpl in Hp. apply andb_true_iff in Hp as [Hpt Hptags].
  rewrite !fmap_cons. cbn [List.filter].
  unfold plain_tag in Hpt. apply andb_true_iff in Hpt as [Hpt Hstrip].
  apply andb_true_iff in Hpt as [Hne _]. apply String.eqb_eq in Hstrip.
  rewrite of_list_to_list, Hstrip, Hne. f_equal.
  by apply plain_tags_survive.
Qed.

(** X11: A text made of tags joined by ", " gives the same allergens as
    the list of these tags, provided every tag is non-empty, has no comma and
    no white space around it, and the text is not enclosed in square brackets. *)
Theorem comma_text_round_trip (env : PyEnv) (tags : list string) :
  forallb plain_tag tags = true →
  bracketed (Str.strip (String.concat ", " tags)) = false →
  row_allergens env (VStr (String.concat ", " tags))
  = row_allergens env (VList (VStr <$> tags)).
Proof.
  intros Hp Hb. simpl row_allergens at 2.
  rewrite <- (split_tags_joined tags Hp), <- split_tags_strip.
  unfold row_allergens, bracketed in *. simpl. rewrite Hb.
  by destruct (Str.strip _).
Qed.

Lemma comma_text_round_trip_witness :
  let tags := ["soy"; "egg"; "tree nuts"] in
  forallb plain_tag tags = true
  ∧ bracketed (Str.strip (String.concat ", " tags)) = false
  ∧ row_allergens Sample.env (VStr "soy, egg, tree nuts")
    = row_allergens Sample.env (VList [VStr "soy"; VStr "egg"; VStr "tree nuts"]).
Proof.
  intros tags.
  do 2 (split; [reflexivity|]).
  exact (comma_text_round_trip Sample.env tags eq_refl eq_refl).
Defined.

(** ** Dashboard: the calories histogram *)

Lemma map_res_derived env rows rows' :
  map_res (λ r, v ← clean_calories env (cell r "calories");
                Ret (<["calories_numeric" := numeric_cell v]> r)) rows
  = Ret rows' →
  rows' = with_calories env <$> rows.
Proof.
  revert rows'. induction rows as [|r rows IH]; intros rows'; simpl.
  - by intros [= <-].
  - unfold with_calories, calories_of.
    destruct (clean_calories env (cell r "calories")) as [v|]; [|discriminate].
    simpl. destruct (map_res _ rows) as [rest|]; [|discriminate].
    simpl. intros [= <-]. rewrite (IH rest eq_refl). by destruct v.
Qed.

Lemma filter_fmap {A B} (p : B → bool) (f : A → B) l :
  List.filter p (f <$> l) = f <$> List.filter (λ x, p (f x)) l.
Proof.
  induction l as [|x l IH]; [done|]. rewrite fmap_cons. simpl.
  destruct (p (f x)); by rewrite IH.
Qed.

Lemma has_column_derived df rows c :
  c ≠ "calories_numeric" →
  has_column {| df_columns := {["calories_numeric"]} ∪ df_columns df;
                df_rows := rows |} c = has_column df c.
Proof.
  intros Hc. unfold has_column; simpl. apply bool_decide_ext.
  rewrite elem_of_union, elem_of_singleton. intuition.
Qed.

Lemma passes_with_calories env df rows sel veg gf r :
  passes {| df_columns := {["calories_numeric"]} ∪ df_columns df;
            df_rows := rows |} sel veg gf (with_calories env r)
  = passes df sel veg gf r.
Proof.
  unfold passes. rewrite !has_column_derived by done.
  unfold category_is, flag_is_true, cell, with_calories.
  by rewrite !lookup_insert_ne by done.
Qed.

Lemma dropna_numeric vs :
  dropna (numeric_cell <$> vs) = VInt <$> omap id vs.
Proof.
  induction vs as [|[n|] vs IH]; [done|..]; rewrite fmap_cons; simpl;
    unfold dropna in *; simpl; by rewrite IH.
Qed.

(** X12: When the table has a calories column and the derived column can be
    computed, the histogram of the filtered table shows exactly the calories
    that clean_calories finds in the rows the filters keep, in their order,
    and the message takes its place when there are none. *)
Theorem histogram_of_visible_rows (env : PyEnv) (df df' : DataFrame)
    (selected_category : string) (show_vegetarian show_gluten_free : bool) :
  has_column df "calories" = true →
  derive_calories env df = Ret df' →
  histogram_values
    (apply_filters df' selected_category show_vegetarian show_gluten_free)
  = match omap (calories_of env)
            (df_rows (apply_filters df selected_category show_vegetarian
                        show_gluten_free)) with
    | [] => None
    | shown => Some (VInt <$> shown)
    end.
Proof.
  intros Hcol. unfold derive_calories. rewrite Hcol.
  intros (rows' & Hrows & Hdf)%bind_ret_inv. injection Hdf as <-.
  apply map_res_derived in Hrows as ->.
  rewrite !apply_filters_passes. unfold histogram_values, select_rows; simpl.
  assert (Hcn : ∀ rows,
            has_column {| df_columns := {["calories_numeric"]} ∪ df_columns df;
                          df_rows := rows |} "calories_numeric" = true).
  { intros rows. unfold has_column; simpl. apply bool_decide_eq_true.
    apply elem_of_union. left. by apply elem_of_singleton. }
  rewrite Hcn. unfold column; simpl.
  rewrite filter_fmap.
  rewrite (filter_same _ (passes df selected_category show_vegetarian show_gluten_free));
    [|intros r; apply passes_with_calories].
  rewrite <- list_fmap_compose.
  erewrite (list_fmap_ext _ (numeric_cell ∘ calories_of env));
    [|intros i r _; simpl; unfold cell, with_calories;
      by rewrite lookup_insert_eq].
  rewrite list_fmap_compose, dropna_numeric.
  assert (Hom : ∀ l : list row,
            omap id (calories_of env <$> l) = omap (calories_of env) l).
  { induction l as [|r l IH]; [done|]. rewrite fmap_cons. simpl.
    unfold id at 1. destruct (calories_of env r); simpl; f_equal; apply IH. }
  rewrite Hom.
  destruct (omap (calories_of env) _) as [|n shown]; reflexivity.
Qed.

Lemma histogram_of_visible_rows_witness :
  has_column Sample.menu "calories" = true
  ∧ ∃ df',
      derive_calories Sample.env Sample.menu = Ret df'
      ∧ histogram_values (apply_filters df' "sides" false false)
        = Some [VInt 360; VInt 170].
Proof.
  split; [reflexivity|].
  eexists. split; [reflexivity|].
  exact (histogram_of_visible_rows Sample.env Sample.menu _ "sides" false false
           eq_refl eq_refl).
Defined.

(** ** Dashboard: the start of [main] *)

Lemma union_dom_empty (rows : list row) :
  ⋃ (dom <$> rows) = (∅ : gset string) ↔ Forall (λ r, r = ∅) rows.
Proof.
  induction rows as [|r rows IH]; simpl.
  - split; [by constructor|done].
  - rewrite empty_union_L, IH. split.
    + intros [Hr Hrows]. constructor; [|done]. by apply dom_empty_iff_L.
    + intros H. inversion_clear H as [|?? Hr Hrows]. split; [|done].
      subst r. apply dom_empty_L.
Qed.

(** X13: The start of main never raises. It ends on the warning when there is
    no table to go on with, which is the case whenever a variable of the
    environment is missing; a table it goes on with was fetched from the
    remote table and has at least one row and one column. *)
Theorem dashboard_stops_without_data (SUPABASE_URL SUPABASE_KEY : option string)
    (remote : Supabase) :
  ∃ screens next,
    main_start SUPABASE_URL SUPABASE_KEY remote = Ret (screens, next)
    ∧ (next = None → last screens = Some NoDataWarning)
    ∧ (∀ df, next = Some df →
         ∃ url key rows,
           SUPABASE_URL = Some url ∧ SUPABASE_KEY = Some key
           ∧ create_client remote url key ≫= execute_select remote
             = Ret (Some rows)
           ∧ df = pd_DataFrame rows
           ∧ rows ≠ []
           ∧ ¬ Forall (λ r, r = ∅) rows
           ∧ screens = [PageTitle; Caption (length rows) (df_columns df)])
    ∧ (env_missing SUPABASE_URL || env_missing SUPABASE_KEY = true → next = None).
Proof.
  unfold main_start, get_menu_data.
  destruct (env_missing SUPABASE_URL || env_missing SUPABASE_KEY) eqn:Hmiss.
  - simpl. eexists _, _. split; [done|]. split_and!; [done|discriminate|done].
  - destruct SUPABASE_URL as [url|], SUPABASE_KEY as [key|];
      try (simpl in Hmiss; rewrite ?orb_true_r in Hmiss; discriminate).
    simpl.
    destruct (create_client remote url key) as [sb|e] eqn:Hc; simpl.
    2:{ eexists _, _. split; [done|]. split_and!; [done|discriminate|discriminate]. }
    destruct (execute_select remote sb) as [data|e] eqn:Hs; simpl.
    2:{ eexists _, _. split; [done|]. split_and!; [done|discriminate|discriminate]. }
    destruct (df_empty (pd_DataFrame (default [] data))) eqn:He.
    + eexists _, _. split; [done|]. split_and!; [|discriminate|discriminate].
      intros _. by rewrite !last_snoc || by rewrite last_cons.
    + eexists _, _. split; [done|]. split_and!; [discriminate| |discriminate].
      intros df [= <-]. unfold df_empty in He. simpl in He.
      destruct data as [rows|]; simpl in He; [|discriminate].
      destruct rows as [|r rows]; [discriminate|].
      apply bool_decide_eq_false in He.
      exists url, key, (r :: rows). rewrite Hc; simpl. rewrite Hs.
      split_and!; try done.
      intros Hall. apply He. by apply (union_dom_empty (r :: rows)).
Qed.

(** ** Dashboard: selectors, item details and the table *)

Lemma unique_go_elem seen cells x :
  x ∈ unique_go seen cells → x ∈ cells.
Proof.
  revert seen. induction cells as [|y cells IH]; intros seen; simpl.
  - by intros ?%elem_of_nil.
  - destruct (existsb (key_eq y) seen).
    + intros H. right. by eapply IH.
    + intros [->|H]%elem_of_cons; [left|right; by eapply IH].
Qed.

Lemma key_eq_text s x : key_eq (VStr s) x = true → x = VStr s.
Proof.
  destruct x; try discriminate. simpl. by intros ->%String.eqb_eq.
Qed.

Lemma key_eq_text_refl s : key_eq (VStr s) (VStr s) = true.
Proof. simpl. apply String.eqb_refl. Qed.

Lemma unique_go_text seen cells s :
  VStr s ∈ cells → VStr s ∈ seen ∨ VStr s ∈ unique_go seen cells.
Proof.
  revert seen. induction cells as [|y cells IH]; intros seen; simpl.
  - by intros ?%elem_of_nil.
  - intros [<-|H]%elem_of_cons.
    + destruct (existsb (key_eq (VStr s)) seen) eqn:E.
      * left. apply existsb_exists in E as (x & Hx%list_elem_of_In & Hk).
        by rewrite <- (key_eq_text _ _ Hk).
      * right. by left.
    + destruct (existsb (key_eq y) seen).
      * by apply IH.
      * destruct (IH (y :: seen) H) as [[->|Hs]%elem_of_cons|Hu].
        -- right. by left.
        -- by left.
        -- right. by right.
Qed.

Lemma elem_of_filter_bool {A} (f : A → bool) l x :
  x ∈ List.filter f l ↔ x ∈ l ∧ f x = true.
Proof. rewrite !list_elem_of_In. apply filter_In. Qed.

Lemma elem_of_column df c x :
  x ∈ column df c → ∃ r, r ∈ df_rows df ∧ cell r c = x.
Proof.
  unfold column. intros (r & -> & Hr)%list_elem_of_fmap. by exists r.
Qed.

(** X14: Every text among the names offered by the item selector has a details
    panel, and it is that of the first row of that name. *)
Theorem offered_name_has_details (df : DataFrame) (options : list value)
    (name : string) :
  name_options df = Ret options → VStr name ∈ options →
  ∃ pre r post,
    df_rows df = pre ++ r :: post
    ∧ cell r "name" = VStr name
    ∧ Forall (λ r', cell r' "name" ≠ VStr name) pre
    ∧ item_details df name = Some (details_of df r).
Proof.
  unfold name_options, unique_values. intros Hopt Hin.
  destruct (has_column df "name"); [|injection Hopt as <-; by apply elem_of_nil in Hin].
  destruct (forallb hashable _); [|discriminate]. injection Hopt as <-.
  apply unique_go_elem, elem_of_filter_bool in Hin as [Hin _].
  apply elem_of_column in Hin as (r0 & Hr0 & Hcell).
  unfold item_details.
  induction (df_rows df) as [|r rows IH]; [by apply elem_of_nil in Hr0|].
  simpl. destruct (eq_str (cell r "name") name) eqn:E.
  - exists [], r, rows. split_and!; try done.
    destruct (cell r "name"); try discriminate. simpl in E.
    by apply String.eqb_eq in E as ->.
  - apply elem_of_cons in Hr0 as [->|Hr0].
    { rewrite Hcell in E. simpl in E. by rewrite String.eqb_refl in E. }
    destruct (IH Hr0) as (pre & r1 & post & -> & Hc & Hpre & Hd).
    exists (r :: pre), r1, post. split_and!; try done.
    constructor; [|done]. intros Heq. rewrite Heq in E. simpl in E.
    by rewrite String.eqb_refl in E.
Qed.

Lemma offered_name_has_details_witness :
  let options :=
    [VStr "Waffle Potato Fries"; VStr "Nuggets"; VStr "Chicken Soup"] in
  name_options Sample.menu = Ret options
  ∧ VStr "Nuggets" ∈ options
  ∧ ∃ pre r post,
      df_rows Sample.menu = pre ++ r :: post
      ∧ cell r "name" = VStr "Nuggets"
      ∧ Forall (λ r', cell r' "name" ≠ VStr "Nuggets") pre
      ∧ item_details Sample.menu "Nuggets" = Some (details_of Sample.menu r).
Proof.
  intros options.
  split; [reflexivity|].
  assert (H : VStr "Nuggets" ∈ options)
    by exact (list_elem_of_further _ _ _ (list_elem_of_here _ _)).
  split; [exact H|].
  exact (offered_name_has_details Sample.menu options "Nuggets" eq_refl H).
Defined.

Lemma eq_True_truthy x : eq_True x = true → truthy x = true.
Proof.
  destruct x; try discriminate; simpl; [done|].
  intros ->%Z.eqb_eq. done.
Qed.

Lemma item_details_row df name d :
  item_details df name = Some d →
  ∃ r, r ∈ df_rows df ∧ cell r "name" = VStr name ∧ d = details_of df r.
Proof.
  unfold item_details.
  destruct (List.filter _ _) as [|r rest] eqn:E; [discriminate|].
  intros [= <-]. exists r.
  assert (Hin : r ∈ List.filter (λ r, eq_str (cell r "name") name) (df_rows df))
    by (rewrite E; by left).
  apply elem_of_filter_bool in Hin as [Hin Hn].
  split_and!; [done| |done].
  destruct (cell r "name"); try discriminate. simpl in Hn.
  by apply String.eqb_eq in Hn as ->.
Qed.

(** X15: When the Vegetarian Only (Gluten-Free Only) toggle is on and the
    table has the flag column, every details panel that can be shown carries
    the tag Vegetarian (Gluten-Free). *)
Theorem filtered_items_carry_the_tag (df : DataFrame) (selected_category : string)
    (show_vegetarian show_gluten_free : bool) (name : string) (d : details) :
  item_details
    (apply_filters df selected_category show_vegetarian show_gluten_free) name
  = Some d →
  (show_vegetarian = true → has_column df "is_vegetarian" = true →
   "Vegetarian" ∈ shown_dietary d)
  ∧ (show_gluten_free = true → has_column df "is_gluten_free" = true →
     "Gluten-Free" ∈ shown_dietary d).
Proof.
  rewrite apply_filters_passes.
  intros (r & Hr & _ & ->)%item_details_row.
  apply elem_of_filter_bool in Hr as [_ Hp].
  unfold passes in Hp. apply andb_true_iff in Hp as [Hp Hgf].
  apply andb_true_iff in Hp as [_ Hveg].
  unfold details_of, row_get; simpl.
  change (has_column (select_rows _ df)) with (has_column df).
  split; intros -> Hcol; rewrite Hcol in *; simpl in *.
  - unfold flag_is_true in Hveg. rewrite (eq_True_truthy _ Hveg).
    apply elem_of_app. left. by left.
  - unfold flag_is_true in Hgf. rewrite (eq_True_truthy _ Hgf).
    apply elem_of_app. right. by left.
Qed.

Lemma filtered_items_carry_the_tag_witness :
  let d := details_of (apply_filters Sample.menu "All" true false)
             Sample.fries_row in
  item_details (apply_filters Sample.menu "All" true false)
    "Waffle Potato Fries" = Some d
  ∧ has_column Sample.menu "is_vegetarian" = true
  ∧ "Vegetarian" ∈ shown_dietary d.
Proof.
  intros d.
  do 2 (split; [reflexivity|]).
  exact (proj1 (filtered_items_carry_the_tag Sample.menu "All" true false
                  "Waffle Potato Fries" d eq_refl) eq_refl eq_refl).
Defined.

(** X16: When the table has the column is_vegetarian and the rows of a name
    have no such field, the panel of that name carries the tag Vegetarian (the
    missing value is nan, which is true), yet the Vegetarian Only toggle
    removes the item. *)
Theorem missing_flag_is_tagged (df : DataFrame) (name : string) (d : details) :
  has_column df "is_vegetarian" = true →
  item_details df name = Some d →
  (∀ r, r ∈ df_rows df → cell r "name" = VStr name → r !! "is_vegetarian" = None) →
  "Vegetarian" ∈ shown_dietary d
  ∧ item_details (apply_filters df "All" true false) name = None.
Proof.
  intros Hcol Hd Hmiss.
  destruct (item_details_row _ _ _ Hd) as (r & Hr & Hn & ->).
  split.
  - unfold details_of, row_get; simpl. rewrite Hcol.
    unfold cell. rewrite (Hmiss r Hr Hn). simpl. by left.
  - rewrite apply_filters_passes. unfold item_details, select_rows; simpl.
    rewrite filter_filter.
    rewrite filter_none; [done|].
    apply Forall_forall. intros r' Hr'.
    unfold passes. rewrite Hcol. simpl.
    destruct (eq_str (cell r' "name") name) eqn:E; [|by rewrite andb_false_r].
    assert (Hn' : cell r' "name" = VStr name).
    { destruct (cell r' "name"); try discriminate. simpl in E.
      by apply String.eqb_eq in E as ->. }
    unfold flag_is_true, cell at 1. by rewrite (Hmiss r' Hr' Hn').
Qed.

Lemma missing_flag_is_tagged_witness :
  let d := details_of Fixture.drinks Fixture.lemonade_row in
  has_column Fixture.drinks "is_vegetarian" = true
  ∧ item_details Fixture.drinks "Lemonade" = Some d
  ∧ Fixture.lemonade_row !! "is_vegetarian" = None
  ∧ "Vegetarian" ∈ shown_dietary d
  ∧ item_details (apply_filters Fixture.drinks "All" true false) "Lemonade"
    = None.
Proof.
  intros d.
  do 3 (split; [reflexivity|]).
  refine (missing_flag_is_tagged Fixture.drinks "Lemonade" d eq_refl eq_refl _).
  intros r Hr Hname.
  apply elem_of_cons in Hr as [->|Hr]; [discriminate Hname|].
  apply list_elem_of_singleton in Hr as ->. reflexivity.
Defined.

Lemma dropna_elem x cells : x ∈ dropna cells ↔ x ∈ cells ∧ checknull x = false.
Proof.
  unfold dropna. rewrite elem_of_filter_bool. by rewrite negb_true_iff.
Qed.



Lemma distinct_unique seen cells :
  distinct seen cells = length (unique_go seen cells).
Proof.
  revert seen. induction cells as [|x cells IH]; intros seen; simpl; [done|].
  destruct (existsb (key_eq x) seen); simpl; by rewrite IH.
Qed.

Lemma filter_length_le {A} (f : A → bool) l :
  (length (List.filter f l) ≤ length l)%nat.
Proof.
  induction l as [|x l IH]; simpl; [done|]. destruct (f x); simpl; lia.
Qed.

Lemma filter_keeps_all {A} (f : A → bool) l :
  Forall (λ x, f x = true) l → List.filter f l = l.
Proof.
  induction 1 as [|x l Hx _ IH]; simpl; [done|]. by rewrite Hx, IH.
Qed.

(** X18: The Categories counter is never less than the number of categories
    collected for the selector, and equals it when no category of the data is
    blank. *)
Theorem counter_covers_selector (env : PyEnv) (df : DataFrame) (k : Kpis)
    (candidates : list value) :
  kpi_row df = Ret k →
  category_candidates env df = Ret candidates →
  (length candidates ≤ categories k)%nat
  ∧ (Forall (λ x, Str.nonempty (Str.strip (py_str env x)) = true)
       (dropna (column df "category")) →
     length candidates = categories k).
Proof.
  unfold kpi_row, category_candidates, nunique, unique_values.
  intros Hk Hc.
  destruct (has_column df "category").
  - destruct (forallb hashable (dropna (column df "category"))); [|discriminate].
    rewrite bind_ret in Hk. simpl in Hc. injection Hc as <-.
    assert (categories k = length (unique_go [] (dropna (column df "category"))))
      as ->.
    { rewrite <- distinct_unique.
      apply bind_ret_inv in Hk as (veg & _ & Hk).
      apply bind_ret_inv in Hk as (gf & _ & Hk).
      by injection Hk as <-. }
    split; [apply filter_length_le|].
    intros Hall. rewrite filter_keeps_all; [done|].
    apply Forall_forall. intros x Hx%unique_go_elem.
    by eapply Forall_forall in Hall.
  - rewrite bind_ret in Hk. injection Hc as <-.
    apply bind_ret_inv in Hk as (veg & _ & Hk).
    apply bind_ret_inv in Hk as (gf & _ & Hk).
    injection Hk as <-. simpl. split; [lia|done].
Qed.

Lemma counter_covers_selector_witness :
  let k := {| total_menu_items := 3; categories := 2;
              vegetarian_options := 1; gluten_free_options := 1 |} in
  let candidates := [VStr "sides"; VStr "entrees"] in
  kpi_row Sample.menu = Ret k
  ∧ category_candidates Sample.env Sample.menu = Ret candidates
  ∧ (length candidates ≤ categories k)%nat.
Proof.
  intros k candidates.
  do 2 (split; [reflexivity|]).
  exact (proj1 (counter_covers_selector Sample.env Sample.menu k candidates
                  eq_refl eq_refl)).
Defined.

(** ** Order and sorting *)

Lemma ltb_false_leb s t : String.ltb s t = false → String.leb t s = true.
Proof.
  unfold String.ltb, String.leb. rewrite (String.compare_antisym t s).
  by destruct (String.compare s t).
Qed.

Lemma ltb_leb s t : String.ltb s t = true → String.leb s t = true.
Proof. unfold String.ltb, String.leb. by destruct (String.compare s t). Qed.

Lemma leb_trans s t u :
  String.leb s t = true → String.leb t u = true → String.leb s u = true.
Proof.
  intros H1 H2.
  pose proof (@transitivity _ String.le _ s t u) as Ht.
  unfold String.le in Ht. apply Is_true_true. apply Ht; by apply Is_true_true.
Qed.

Lemma ltb_leb_false s t :
  String.ltb s t = true → String.leb t s = false.
Proof.
  unfold String.ltb, String.leb. rewrite (String.compare_antisym t s).
  by destruct (String.compare s t).
Qed.

Section TextSort.

Context {A : Type} (key : A → string) (lt : A → A → res bool) (P : A → Prop).

Hypothesis lt_text :
  ∀ x y, P x → P y → lt x y = Ret (String.ltb (key x) (key y)).

Lemma insert_sorted_text x sorted :
  P x → Forall P sorted → StronglySorted (key_le key) sorted →
  ∃ l, insert_sorted lt x sorted = Ret l
       ∧ l ≡ₚ x :: sorted
       ∧ StronglySorted (key_le key) l
       ∧ ∀ k, List.filter (with_key key k) l
              = List.filter (with_key key k) sorted ++ List.filter (with_key key k) [x].
Proof.
  intros Hx. induction sorted as [|y rest IH]; intros HP Hs.
  - exists [x]. split_and!; try done.
    + repeat constructor.
  - inversion_clear HP as [|?? Hy HPrest]. inversion_clear Hs as [|?? Hsrest Hall].
    simpl. rewrite lt_text by done. simpl.
    destruct (String.ltb (key x) (key y)) eqn:E.
    + exists (x :: y :: rest). split_and!; try done.
      * constructor; [by constructor|]. constructor.
        -- by apply ltb_leb.
        -- eapply Forall_impl; [exact Hall|]. intros z Hz.
           eapply leb_trans; [by apply ltb_leb|exact Hz].
      * intros k.
        change (List.filter (with_key key k) (x :: y :: rest))
          with (if with_key key k x
                then x :: List.filter (with_key key k) (y :: rest)
                else List.filter (with_key key k) (y :: rest)).
        change (List.filter (with_key key k) [x])
          with (if with_key key k x then [x] else []).
        destruct (with_key key k x) eqn:Ek; [|by rewrite app_nil_r].
        apply String.eqb_eq in Ek. subst k.
        assert (Hnone : List.filter (with_key key (key x)) (y :: rest) = []).
        { apply filter_none. constructor.
          - unfold with_key. apply String.eqb_neq. intros Heq.
            rewrite Heq in E. unfold String.ltb in E.
            assert (String.compare (key x) (key x) = Eq) as Hc.
            { destruct (String.compare (key x) (key x)) eqn:Hc; [done|..];
                pose proof (String.compare_antisym (key x) (key x)) as Ha;
                rewrite Hc in Ha; discriminate. }
            by rewrite Hc in E.
          - eapply Forall_impl; [exact Hall|]. intros z Hz. simpl in Hz.
            unfold with_key. apply String.eqb_neq. intros Heq.
            unfold key_le in Hz. rewrite Heq in Hz.
            by rewrite (ltb_leb_false _ _ E) in Hz. }
        rewrite Hnone. cbn [List.filter] in Hnone. by rewrite Hnone.
    + destruct (IH HPrest Hsrest) as (l & -> & Hperm & Hsorted & Hstable).
      exists (y :: l). simpl. split_and!; try done.
      * rewrite Hperm. apply Permutation_swap.
      * constructor; [done|]. rewrite Hperm. constructor; [|done].
        by apply ltb_false_leb.
      * intros k. simpl. rewrite Hstable. simpl.
        by destruct (with_key key k y).
Qed.

Lemma sort_into_text sorted l :
  Forall P sorted → Forall P l → StronglySorted (key_le key) sorted →
  ∃ l', sort_into lt sorted l = Ret l'
        ∧ l' ≡ₚ sorted ++ l
        ∧ StronglySorted (key_le key) l'
        ∧ ∀ k, List.filter (with_key key k) l'
               = List.filter (with_key key k) sorted ++ List.filter (with_key key k) l.
Proof.
  revert sorted. induction l as [|x l IH]; intros sorted HPs HPl Hs.
  - exists sorted. rewrite app_nil_r. split_and!; try done.
    intros k. by rewrite app_nil_r.
  - inversion_clear HPl as [|?? Hx HPl'].
    destruct (insert_sorted_text x sorted Hx HPs Hs)
      as (s1 & Hins & Hperm & Hsorted & Hstable).
    simpl. rewrite Hins. simpl.
    destruct (IH s1) as (l' & -> & Hperm' & Hsorted' & Hstable'); try done.
    { rewrite Hperm. by constructor. }
    exists l'. split_and!; try done.
    + rewrite Hperm', Hperm. simpl. apply Permutation_middle.
    + intros k. rewrite Hstable', Hstable. simpl. rewrite <- app_assoc.
      f_equal. by destruct (with_key key k x).
Qed.

Lemma stable_sort_text l :
  Forall P l →
  ∃ l', stable_sort lt l = Ret l'
        ∧ l' ≡ₚ l
        ∧ StronglySorted (key_le key) l'
        ∧ ∀ k, List.filter (with_key key k) l' = List.filter (with_key key k) l.
Proof.
  intros HP. destruct (sort_into_text [] l) as (l' & ? & ? & ? & ?); try done.
  - constructor.
  - by exists l'.
Qed.

End TextSort.

Lemma filter_split_perm {A} (f : A → bool) l :
  List.filter f l ++ List.filter (λ x, negb (f x)) l ≡ₚ l.
Proof.
  induction l as [|x l IH]; [done|]. simpl. destruct (f x); simpl.
  - by rewrite IH.
  - by rewrite <- Permutation_middle, IH.
Qed.

Lemma filter_same_on {A} (f g : A → bool) l :
  Forall (λ x, f x = g x) l → List.filter f l = List.filter g l.
Proof.
  induction 1 as [|x l Hx _ IH]; [done|]. simpl. by rewrite Hx, IH.
Qed.

Lemma Forall_filter_bool {A} (f : A → bool) l :
  Forall (λ x, f x = true) (List.filter f l).
Proof.
  induction l as [|x l IH]; simpl; [done|].
  destruct (f x) eqn:E; [by constructor|done].
Qed.

Lemma Forall_filter_keep {A} (P : A → Prop) (f : A → bool) l :
  Forall P l → Forall P (List.filter f l).
Proof.
  induction 1 as [|x l Hx _ IH]; simpl; [done|].
  destruct (f x); [by constructor|done].
Qed.

Lemma StronglySorted_all {A} (R : relation A) l :
  (∀ x y, x ∈ l → y ∈ l → R x y) → StronglySorted R l.
Proof.
  induction l as [|x l IH]; intros H; constructor.
  - apply IH. intros y z Hy Hz. apply H; by right.
  - apply Forall_forall. intros y Hy. apply H; [by left|by right].
Qed.

Lemma StronglySorted_on {A} (R S : relation A) (P : A → Prop) l :
  (∀ x y, P x → P y → R x y → S x y) → Forall P l →
  StronglySorted R l → StronglySorted S l.
Proof.
  intros HRS HP Hs. induction Hs as [|x l Hs IH Hall]; constructor.
  - apply IH. by inversion HP.
  - inversion_clear HP as [|?? Hx Hl].
    rewrite Forall_forall in *. intros y Hy. apply HRS; auto.
Qed.

Lemma cell_restrict columns r c :
  c ∈ columns → cell (restrict columns r) c = cell r c.
Proof.
  intros Hc. unfold cell, restrict. f_equal.
  destruct (r !! c) as [v|] eqn:E.
  - by apply map_lookup_filter_Some_2.
  - apply map_lookup_filter_None. by left.
Qed.

Lemma category_available df :
  has_column df "category" = true →
  "category" ∈ List.filter (has_column df) display_columns.
Proof.
  intros H. apply list_elem_of_In, filter_In. split; [|done].
  apply list_elem_of_In. unfold display_columns. set_solver.
Qed.

Lemma sort_values_text lt_other c rows :
  Forall (λ r, text_or_missing (cell r c) = true) rows →
  ∃ rows',
    sort_values lt_other c rows = Ret rows'
    ∧ rows' ≡ₚ rows
    ∧ StronglySorted (λ r1 r2, cell_le (cell r1 c) (cell r2 c) = true) rows'
    ∧ (∀ k, List.filter (λ r, eq_str (cell r c) k) rows'
            = List.filter (λ r, eq_str (cell r c) k) rows)
    ∧ List.filter (λ r, checknull (cell r c)) rows'
      = List.filter (λ r, checknull (cell r c)) rows.
Proof.
  intros Hcol. unfold sort_values.
  set (present := List.filter (λ r, negb (checknull (cell r c))) rows).
  set (missing := List.filter (λ r, checknull (cell r c)) rows).
  set (P := λ r : row, ∃ s, cell r c = VStr s).
  assert (HP : Forall P present).
  { apply Forall_forall. intros r Hr.
    pose proof (Forall_filter_bool (λ r, negb (checknull (cell r c))) rows) as Hf.
    rewrite Forall_forall in Hf. specialize (Hf r Hr). simpl in Hf.
    assert (r ∈ rows) as Hin.
    { apply list_elem_of_In. apply list_elem_of_In in Hr.
      by apply filter_In in Hr as [? _]. }
    rewrite Forall_forall in Hcol. specialize (Hcol r Hin).
    unfold P. destruct (cell r c); try discriminate; by eexists. }
  destruct (stable_sort_text (text_key c)
              (λ r1 r2, py_lt lt_other (cell r1 c) (cell r2 c)) P) with (l := present)
    as (sorted & -> & Hperm & Hsorted & Hstable).
  { intros x y [s Hx] [t Hy]. unfold text_key. by rewrite Hx, Hy. }
  { done. }
  assert (HPs : Forall P sorted) by (by rewrite Hperm).
  assert (Hmiss : Forall (λ r, checknull (cell r c) = true) missing)
    by apply Forall_filter_bool.
  exists (sorted ++ missing). rewrite bind_ret. split_and!.
  - done.
  - rewrite Hperm. subst present missing.
    rewrite (Permutation_app_comm _ _).
    etrans; [|apply (filter_split_perm (λ r, checknull (cell r c)))]. done.
  - apply StronglySorted_app_2.
    + intros r1 r2 _ H2. rewrite Forall_forall in Hmiss.
      pose proof (Hmiss r2 H2) as Hm. simpl in Hm. unfold cell_le.
      by destruct (cell r1 c), (cell r2 c).
    + eapply (StronglySorted_on _ _ P); [|exact HPs|exact Hsorted].
      intros x y [s Hx] [t Hy]. unfold key_le, text_key, cell_le.
      by rewrite Hx, Hy.
    + apply StronglySorted_all. intros x y _ Hy.
      rewrite Forall_forall in Hmiss. specialize (Hmiss y Hy).
      simpl in Hmiss. unfold cell_le. by destruct (cell x c), (cell y c).
  - intros k. rewrite List.filter_app.
    rewrite (filter_none _ missing).
    2:{ eapply Forall_impl; [exact Hmiss|]. intros r Hr. simpl in *.
        by destruct (cell r c). }
    rewrite app_nil_r.
    rewrite (filter_same_on _ (with_key (text_key c) k) sorted).
    2:{ eapply Forall_impl; [exact HPs|]. intros r [s Hr]. simpl.
        unfold with_key, text_key. by rewrite Hr. }
    rewrite Hstable.
    rewrite <- (filter_same_on (λ r, eq_str (cell r c) k) _ present).
    2:{ eapply Forall_impl; [exact HP|]. intros r [s Hr]. simpl.
        unfold with_key, text_key. by rewrite Hr. }
    subst present. rewrite filter_filter. apply filter_same. intros r.
    by destruct (cell r c).
  - rewrite List.filter_app.
    rewrite (filter_none _ sorted).
    2:{ eapply Forall_impl; [exact HPs|]. intros r [s Hr]. simpl. by rewrite Hr. }
    simpl. subst missing. rewrite filter_filter. apply filter_same.
    intros r. by destruct (checknull _).
Qed.

(** X19: When the category column holds only texts and missing values, the
    table shown has the display columns the data has, and its rows are the
    visible rows cut to these columns, sorted by category in code-point order
    with the rows of no category last, the rows of one category keeping their
    order. *)
Theorem table_is_sorted_by_category (lt_other : value → value → res bool)
    (df : DataFrame) :
  has_column df "category" = true →
  Forall (λ r, text_or_missing (cell r "category") = true) (df_rows df) →
  ∃ rows',
    menu_table lt_other df
    = Ret (List.filter (has_column df) display_columns, rows')
    ∧ rows' ≡ₚ restrict (List.filter (has_column df) display_columns)
                 <$> df_rows df
    ∧ StronglySorted
        (λ r1 r2, cell_le (cell r1 "category") (cell r2 "category") = true) rows'
    ∧ (∀ c, List.filter (category_is c) rows'
            = restrict (List.filter (has_column df) display_columns)
                <$> List.filter (category_is c) (df_rows df))
    ∧ List.filter (λ r, checknull (cell r "category")) rows'
      = restrict (List.filter (has_column df) display_columns)
          <$> List.filter (λ r, checknull (cell r "category")) (df_rows df).
Proof.
  intros Hcol Htext. unfold menu_table.
  pose proof (category_available df Hcol) as Hav.
  set (available := List.filter (has_column df) display_columns) in *.
  destruct available as [|a0 av] eqn:Eav; [by apply elem_of_nil in Hav|].
  rewrite <- Eav in *. clear Eav a0 av.
  rewrite bool_decide_eq_true_2 by done.
  destruct (sort_values_text lt_other "category" (restrict available <$> df_rows df))
    as (rows' & -> & Hperm & Hsorted & Hstable & Hmissing).
  { apply Forall_fmap. eapply Forall_impl; [exact Htext|].
    intros r Hr. simpl. by rewrite cell_restrict. }
  exists rows'. rewrite bind_ret. split_and!; try done.
  - intros c. unfold category_is. rewrite Hstable, filter_fmap.
    f_equal. apply filter_same. intros r. by rewrite cell_restrict.
  - rewrite Hmissing, filter_fmap. f_equal. apply filter_same.
    intros r. by rewrite cell_restrict.
Qed.

Lemma table_is_sorted_by_category_witness :
  has_column Sample.menu "category" = true
  ∧ Forall (λ r, text_or_missing (cell r "category") = true)
      (df_rows Sample.menu)
  ∧ ∃ rows',
      menu_table Fixture.no_order Sample.menu
      = Ret (List.filter (has_column Sample.menu) display_columns, rows')
      ∧ StronglySorted
          (λ r1 r2, cell_le (cell r1 "category") (cell r2 "category") = true)
          rows'.
Proof.
  split; [reflexivity|].
  assert (H : Forall (λ r, text_or_missing (cell r "category") = true)
                (df_rows Sample.menu))
    by (repeat constructor).
  split; [exact H|].
  destruct (table_is_sorted_by_category Fixture.no_order Sample.menu eq_refl H)
    as (rows' & Htable & _ & Hsorted & _).
  exact (ex_intro _ rows' (conj Htable Hsorted)).
Defined.

Lemma unique_go_fresh seen cells :
  Forall (λ x, is_text x = true) cells →
  NoDup (unique_go seen cells)
  ∧ ∀ x, x ∈ unique_go seen cells → x ∉ seen.
Proof.
  revert seen. induction cells as [|y cells IH]; intros seen Ht; simpl.
  - split; [constructor|]. by intros x ?%elem_of_nil.
  - inversion_clear Ht as [|?? Hy Hcells].
    destruct (existsb (key_eq y) seen) eqn:E.
    + by apply IH.
    + destruct (IH (y :: seen) Hcells) as [Hnd Hfresh].
      assert (y ∉ seen) as Hyseen.
      { intros Hin. destruct y; try discriminate.
        assert (existsb (key_eq (VStr s)) seen = true) as Hex.
        { apply existsb_exists. exists (VStr s). split.
          - by apply list_elem_of_In.
          - apply key_eq_text_refl. }
        congruence. }
      split.
      * constructor; [|done]. intros Hin. apply (Hfresh y Hin). by left.
      * intros x [->|Hx]%elem_of_cons; [done|].
        intros Hin. apply (Hfresh x Hx). by right.
Qed.

Lemma leb_ne_ltb s t : String.leb s t = true → s ≠ t → String.ltb s t = true.
Proof.
  unfold String.leb, String.ltb. intros Hle Hne.
  destruct (String.compare s t) eqn:E; [|done|done].
  by apply String.compare_eq_iff in E.
Qed.

Lemma texts_of_values l :
  Forall (λ x, is_text x = true) l → l = VStr <$> (text_of <$> l).
Proof.
  induction 1 as [|x l Hx _ IH]; [done|]. rewrite !fmap_cons, <- IH.
  by destruct x.
Qed.

Lemma strictly_sorted_texts (l : list value) :
  Forall (λ x, is_text x = true) l → NoDup l →
  StronglySorted (key_le text_of) l →
  StronglySorted (λ s t, String.ltb s t = true) (text_of <$> l).
Proof.
  intros Ht Hnd Hs. induction Hs as [|x l Hs IH Hall]; [constructor|].
  inversion_clear Ht as [|?? Hx Hl]. inversion_clear Hnd as [|?? Hxl Hndl].
  rewrite fmap_cons. constructor; [by apply IH|].
  apply Forall_fmap. rewrite Forall_forall in *. intros y Hy. simpl.
  apply leb_ne_ltb; [by apply Hall|].
  intros Heq. apply Hxl.
  specialize (Hl y Hy). destruct x, y; try discriminate. simpl in Heq.
  by subst.
Qed.

(** X20: When the category column holds only texts and missing values, the
    selector offers "All" followed by the non-blank categories of the data,
    each once, in strictly increasing code-point order. *)
Theorem options_are_sorted_categories (lt_other : value → value → res bool)
    (env : PyEnv) (df : DataFrame) :
  has_column df "category" = true →
  Forall (λ r, text_or_missing (cell r "category") = true) (df_rows df) →
  ∃ names,
    category_options lt_other env df = Ret (VStr "All" :: (VStr <$> names))
    ∧ StronglySorted (λ s t, String.ltb s t = true) names
    ∧ ∀ c, c ∈ names
           ↔ Str.nonempty (Str.strip c) = true
             ∧ ∃ r, r ∈ df_rows df ∧ cell r "category" = VStr c.
Proof.
  intros Hcol Htext. unfold category_options, category_candidates, unique_values.
  rewrite Hcol.
  set (cells := dropna (column df "category")).
  assert (Hcells : Forall (λ x, is_text x = true) cells).
  { apply Forall_forall. intros x [Hx Hnull]%dropna_elem.
    apply elem_of_column in Hx as (r & Hr & <-).
    rewrite Forall_forall in Htext. specialize (Htext r Hr). simpl in Htext.
    by destruct (cell r "category"). }
  assert (Hhash : forallb hashable cells = true).
  { apply forallb_forall. intros x Hx%list_elem_of_In.
    rewrite Forall_forall in Hcells. specialize (Hcells x Hx). by destruct x. }
  rewrite Hhash, !bind_ret.
  set (cands := List.filter (λ c, Str.nonempty (Str.strip (py_str env c)))
                  (unique_go [] cells)).
  assert (Hc_text : Forall (λ x, is_text x = true) cands).
  { apply Forall_filter_keep. apply Forall_forall. intros x Hx%unique_go_elem.
    rewrite Forall_forall in Hcells. by apply Hcells. }
  assert (Hc_nodup : NoDup cands).
  { apply (sublist_NoDup _ (unique_go [] cells));
      [exact (proj1 (unique_go_fresh [] cells Hcells))|apply filter_sublist]. }
  destruct (stable_sort_text text_of (py_lt lt_other) (λ x, is_text x = true))
    with (l := cands) as (sorted & -> & Hperm & Hsorted & _).
  { intros x y Hx Hy. by destruct x, y. }
  { done. }
  rewrite bind_ret.
  assert (Hs_text : Forall (λ x, is_text x = true) sorted) by (by rewrite Hperm).
  exists (text_of <$> sorted). split_and!.
  - by rewrite <- texts_of_values.
  - apply strictly_sorted_texts; [done| |done]. by rewrite Hperm.
  - intros c.
    assert (c ∈ text_of <$> sorted ↔ VStr c ∈ cands) as ->.
    { rewrite <- Hperm. split.
      - intros (x & -> & Hx)%list_elem_of_fmap.
        rewrite Forall_forall in Hs_text. specialize (Hs_text x Hx).
        by destruct x.
      - intros Hx. apply list_elem_of_fmap. by exists (VStr c). }
    subst cands. rewrite elem_of_filter_bool. simpl. split.
    + intros [Hin Hnb]. split; [done|].
      apply unique_go_elem, dropna_elem in Hin as [Hin _].
      by apply elem_of_column in Hin.
    + intros [Hnb (r & Hr & Hcell)]. split; [|done].
      destruct (unique_go_text [] cells c) as [H|H];
        [|by apply elem_of_nil in H|done].
      apply dropna_elem. split; [|done]. rewrite <- Hcell.
      unfold column. apply list_elem_of_fmap. by exists r.
Qed.

Lemma options_are_sorted_categories_witness :
  has_column Sample.menu "category" = true
  ∧ Forall (λ r, text_or_missing (cell r "category") = true)
      (df_rows Sample.menu)
  ∧ ∃ names,
      category_options Fixture.no_order Sample.env Sample.menu
      = Ret (VStr "All" :: (VStr <$> names))
      ∧ StronglySorted (λ s t, String.ltb s t = true) names.
Proof.
  split; [reflexivity|].
  assert (H : Forall (λ r, text_or_missing (cell r "category") = true)
                (df_rows Sample.menu))
    by (repeat constructor).
  split; [exact H|].
  destruct (options_are_sorted_categories Fixture.no_order Sample.env
              Sample.menu eq_refl H) as (names & Hoptions & Hsorted & _).
  exact (ex_intro _ names (conj Hoptions Hsorted)).
Defined.
